(** * FIFO holdings ledger, valuation and target-profit solver

    A shallow embedding of [portfolio_simulation.py]: the ledger fold
    [process_transactions], the valuation [simulate_portfolio] and the
    solver [calculate_shares_to_sell], with the properties of the
    specification stated and proved (or refuted) over them.

    Numbers.  The program computes with Python [float], IEEE 754 binary64.
    The ledger is embedded twice.  In module [Binary64] its numbers are
    binary64 floats with the machine's operations: what rounding decides
    (the lots a disposal pops and the lot it leaves, the relation between
    [total_shares] and the lots, the total after an over-sell) is stated and
    proved there.  Everywhere else a number is an exact rational in
    canonical form ([Qc]): the arithmetic is the program's without rounding,
    overflow, infinities or NaN, for the statements about control flow,
    about the structure of the data and about the formulas the program
    evaluates.

    Effects.  A Python [dict] is an association list in insertion order;
    [print] appends a [Message] to an output list that the state carries;
    the in-place updates of [HoldingsData] and [Lot] objects become
    functional updates of the entry stored under the instrument's key. *)

From Stdlib Require Import QArith Qcanon Lqa Lia List String Ascii Bool.
From Stdlib Require Qcabs.
From Stdlib Require Import Floats.
From Stdlib Require Import Sorted Permutation.
Import ListNotations.

Open Scope string_scope.
Open Scope list_scope.
Open Scope Qc_scope.

Set Warnings "-inexact-float".

(* ================================================================= *)
(** ** Numbers *)

(** [x <= y], [x < y] and [x != y] as the program tests them. *)
Definition Qcleb (x y : Qc) : bool := Qle_bool x y.
Definition Qcltb (x y : Qc) : bool := negb (Qle_bool y x).
Definition Qcneqb (x y : Qc) : bool := negb (Qc_eq_bool x y).

(** An integer literal. *)
Definition QcZ (z : Z) : Qc := Q2Qc (inject_Z z).

(* ================================================================= *)
(** ** Strings: [str.lower], [str.strip], [str.replace] on ASCII *)

Definition lower_ascii (c : ascii) : ascii :=
  let n := nat_of_ascii c in
  if Nat.leb 65 n && Nat.leb n 90 then ascii_of_nat (n + 32)%nat else c.

Fixpoint lower (s : string) : string :=
  match s with
  | EmptyString => EmptyString
  | String c s' => String (lower_ascii c) (lower s')
  end.

Definition is_space (c : ascii) : bool :=
  let n := nat_of_ascii c in
  (Nat.leb 9 n && Nat.leb n 13) || (Nat.leb 28 n && Nat.leb n 32).

Fixpoint lstrip (s : string) : string :=
  match s with
  | EmptyString => EmptyString
  | String c s' => if is_space c then lstrip s' else s
  end.

Definition rev_string (s : string) : string :=
  string_of_list_ascii (rev (list_ascii_of_string s)).

Definition strip (s : string) : string :=
  rev_string (lstrip (rev_string (lstrip s))).

(** [s.replace(old, '')]: every occurrence of [old], left to right and
    without overlap, is dropped; [skip] counts the characters of a match
    still to drop. *)
Fixpoint remove_from (old : string) (skip : nat) (s : string) : string :=
  match s with
  | EmptyString => EmptyString
  | String c s' =>
      match skip with
      | S k => remove_from old k s'
      | O =>
          if negb (String.eqb old EmptyString) && String.prefix old s
          then remove_from old (String.length old - 1)%nat s'
          else String c (remove_from old O s')
      end
  end.

Definition remove (old s : string) : string := remove_from old O s.

(** [s or d]: the empty string is false. *)
Definition str_or (s d : string) : string :=
  match s with EmptyString => d | _ => s end.

(** Membership in a list literal of strings, [x in [a, b, ...]]. *)
Definition str_in (x : string) (l : list string) : bool :=
  existsb (String.eqb x) l.

(* ================================================================= *)
(** ** Dictionaries with string keys, in insertion order *)

Section Dict.
Context {V : Type}.

Fixpoint dict_get (d : list (string * V)) (k : string) : option V :=
  match d with
  | [] => None
  | (k', v) :: d' => if String.eqb k k' then Some v else dict_get d' k
  end.

(** [d[k] = v]: an existing key keeps its place, a new key goes last. *)
Fixpoint dict_set (d : list (string * V)) (k : string) (v : V)
  : list (string * V) :=
  match d with
  | [] => [(k, v)]
  | (k', v') :: d' =>
      if String.eqb k k' then (k', v) :: d' else (k', v') :: dict_set d' k v
  end.

Definition dict_mem (d : list (string * V)) (k : string) : bool :=
  match dict_get d k with Some _ => true | None => false end.
End Dict.

(* ================================================================= *)
(** ** The module's tables *)

Definition FIXED_PRICES : list (string * Qc) :=
  [ ("amundi msci world v (acc)", Q2Qc (1880 # 100));
    ("ishares core msci europe (acc)", Q2Qc (7896 # 100));
    ("amundi msci emerging markets ii (dist)", Q2Qc (4712 # 100)) ].

Definition ALIAS_MAPPING : list (string * list string) :=
  [ ("amundi msci world v (acc)",
      [ "amundi msci world v (acc)";
        "amundi msci world v ucits etf acc";
        "amundi msci world v";
        "lyxor core msci world (dr) ucits etf - acc" ]);
    ("ishares core msci europe (acc)",
      [ "ishares core msci europe (acc)";
        "ishares core msci europe ucits etf eur (acc)";
        "ishares core msci europe ucits etf eur";
        "ishares core msci europe" ]);
    ("amundi msci emerging markets ii (dist)",
      [ "amundi msci emerging markets ii (dist)";
        "amundi msci emerging markets ii ucits etf dist";
        "amundi msci emerging markets ii ucits etf";
        "amundi msci emerging markets ii";
        "lyxor msci emerging markets (lux) ucits etf";
        "lu2573966905" ]) ].

(** The reverse table, built by the two nested loops of the module. *)
Definition INSTRUMENT_ALIAS : list (string * string) :=
  fold_left
    (fun tbl '(canonical_name, aliases) =>
       fold_left (fun tbl alias => dict_set tbl (lower alias) canonical_name)
                 aliases tbl)
    ALIAS_MAPPING [].

Definition get_canonical_name (instrument_name : string) : string :=
  match dict_get INSTRUMENT_ALIAS (lower instrument_name) with
  | Some canonical => canonical
  | None => lower instrument_name
  end.

(* ================================================================= *)
(** ** Data model *)

Record Lot : Type := mkLot
  { date : string;
    shares : Qc;
    cost_per_share : Qc }.

Record HoldingsData : Type := mkHoldingsData
  { lots : list Lot;
    total_shares : Qc;
    current_price : option Qc;
    current_value : option Qc;
    total_cost : option Qc;
    unrealized_pl : option Qc }.

Definition Holdings : Type := list (string * HoldingsData).

(** [datetime], as far as [strftime('%Y-%m-%d')] reads it. *)
Record datetime : Type := mkDate { year : nat; month : nat; day : nat }.

(** A row of the CSV: the cells by column name, and the [Date] cell once
    [read_and_parse_transactions] has replaced it by a [datetime] or by
    [None].  Every cell present is a string, as [write_csv] writes them. *)
Record Row : Type := mkRow
  { Date : option datetime;
    cells : list (string * string) }.

(** [row.get(key, '')]. *)
Definition row_get (row : Row) (key : string) : string :=
  match dict_get (cells row) key with Some v => v | None => EmptyString end.

Definition digit (n : nat) : ascii := ascii_of_nat (48 + Nat.modulo n 10)%nat.

Definition strftime (d : datetime) : string :=
  String (digit (Nat.div (year d) 1000)) (String (digit (Nat.div (year d) 100))
  (String (digit (Nat.div (year d) 10)) (String (digit (year d))
  (String "-" (String (digit (Nat.div (month d) 10)) (String (digit (month d))
  (String "-" (String (digit (Nat.div (day d) 10)) (String (digit (day d))
  EmptyString))))))))).

(** What the program prints, one constructor per [print] site (a plan of
    the solver is printed on five lines, here one message). *)
Inductive Message : Type :=
| WarnInvalidDistribution (row : Row)
| WarnSkippingInvalid (row : Row)
| WarnSoldMore (instrument : string)
| WarnNotInHoldings (instrument : string)
| WarnNoFixedPrice (instrument : string)
| Calculating (desired_profit : Qc)
| ToRealize (instrument : string)
    (desired_profit shares_to_sell current_price
     total_proceeds total_cost_basis realized_profit : Qc)
| NotEnough (instrument : string)
    (desired_profit shares_to_sell realized_profit : Qc).

(* ================================================================= *)
(** ** The holdings ledger: [process_transactions] *)

(** The state the loop of [process_transactions] threads: its two local
    variables and what it has printed so far. *)
Record Ledger : Type := mkLedger
  { holdings : Holdings;
    realized_pl : Qc;
    stdout : list Message }.

Definition with_lot_shares (lot : Lot) (s : Qc) : Lot :=
  {| date := date lot; shares := s; cost_per_share := cost_per_share lot |}.

(** The [while shares_to_sell > 0 and lots] loop of a disposal.  Every
    iteration either pops the oldest lot or sets [shares_to_sell] to 0, which
    ends the loop: the recursion is on the queue.  The result is the queue,
    [shares_to_sell], the entry's [total_shares] and [realized_pl] when the
    loop exits. *)
Fixpoint fifo_disposal (sale_price_per_share : Qc) (queue : list Lot)
    (shares_to_sell total pl : Qc) {struct queue} : list Lot * Qc * Qc * Qc :=
  match queue with
  | [] => (queue, shares_to_sell, total, pl)
  | lot :: rest =>
      if Qcltb 0 shares_to_sell then
        let lot_shares := shares lot in
        if Qcleb lot_shares shares_to_sell then
          (* sell the entire lot *)
          let profit := (sale_price_per_share - cost_per_share lot) * lot_shares in
          fifo_disposal sale_price_per_share rest
            (shares_to_sell - lot_shares) (total - lot_shares) (pl + profit)
        else
          (* sell part of the lot *)
          let profit := (sale_price_per_share - cost_per_share lot) * shares_to_sell in
          (with_lot_shares lot (shares lot - shares_to_sell) :: rest,
           0, total - shares_to_sell, pl + profit)
      else (queue, shares_to_sell, total, pl)
  end.

Definition with_lots (data : HoldingsData) (l : list Lot) (t : Qc) : HoldingsData :=
  {| lots := l; total_shares := t;
     current_price := current_price data; current_value := current_value data;
     total_cost := total_cost data; unrealized_pl := unrealized_pl data |}.

Definition empty_entry : HoldingsData :=
  {| lots := []; total_shares := 0;
     current_price := None; current_value := None;
     total_cost := None; unrealized_pl := None |}.

Definition print (st : Ledger) (m : Message) : Ledger :=
  {| holdings := holdings st; realized_pl := realized_pl st;
     stdout := stdout st ++ [m] |}.

(** The locals every iteration computes from its row. *)
Definition transaction_type (row : Row) : string :=
  strip (row_get row "Transaction Type").

Definition instrument (row : Row) : string :=
  strip (row_get row "Instrument Name").

Definition amount_str (row : Row) : string :=
  str_or (strip (remove "," (remove "€" (row_get row "Amount")))) "0.0".

Definition shares_str (row : Row) : string :=
  str_or (strip (remove "," (row_get row "Shares"))) "0.0".

Definition date_str (row : Row) : string :=
  match Date row with Some d => strftime d | None => "Unknown" end.

Definition instrument_canonical (row : Row) : string :=
  get_canonical_name (instrument row).

Section Ledger.
(** Python's [float(str)]; [None] stands for [ValueError]. *)
Variable py_float : string -> option Qc.

(** The [Buy], [Savings Plan], [Swap in] branch: the entry is created when
    the key is new, then a lot is appended and the total raised. *)
Definition buy (st : Ledger) (instrument_canonical date : string)
    (amount shares : Qc) : Ledger :=
  let data :=
    match dict_get (holdings st) instrument_canonical with
    | Some data => data
    | None => empty_entry
    end in
  let cost_per_share :=
    if Qcneqb shares 0 then Qcabs.Qcabs (amount / shares) else 0 in
  {| holdings :=
       dict_set (holdings st) instrument_canonical
         (with_lots data
            (lots data ++ [mkLot date shares cost_per_share])
            (total_shares data + shares));
     realized_pl := realized_pl st;
     stdout := stdout st |}.

(** The [Sell], [Swap out] branch. *)
Definition sell (st : Ledger) (instrument_canonical : string)
    (amount shares : Qc) : Ledger :=
  match dict_get (holdings st) instrument_canonical with
  | Some data =>
      let sale_price_per_share :=
        if Qcneqb shares 0 then amount / shares else 0 in
      let '(queue, shares_to_sell, total, pl) :=
        fifo_disposal sale_price_per_share (lots data) shares
          (total_shares data) (realized_pl st) in
      let st' :=
        {| holdings :=
             dict_set (holdings st) instrument_canonical
               (with_lots data queue total);
           realized_pl := pl;
           stdout := stdout st |} in
      if Qcltb 0 shares_to_sell
      then print st' (WarnSoldMore instrument_canonical)
      else st'
  | None => print st (WarnNotInHoldings instrument_canonical)
  end.

(** One iteration of [for row in transactions]. *)
Definition process_row (st : Ledger) (row : Row) : Ledger :=
  if str_in (transaction_type row) ["Deposit"; "Withdrawal"] then st
  else if String.eqb (transaction_type row) "Distribution" then
    match py_float (amount_str row) with
    | Some amount =>
        {| holdings := holdings st;
           realized_pl := realized_pl st + amount;
           stdout := stdout st |}
    | None => print st (WarnInvalidDistribution row)
    end
  else
    match py_float (amount_str row), py_float (shares_str row) with
    | Some amount, Some shares =>
        if str_in (transaction_type row) ["Buy"; "Savings Plan"; "Swap in"]
        then buy st (instrument_canonical row) (date_str row) amount shares
        else if str_in (transaction_type row) ["Sell"; "Swap out"]
        then sell st (instrument_canonical row) amount shares
        else st
    | _, _ => print st (WarnSkippingInvalid row)
    end.

Definition initial : Ledger :=
  {| holdings := []; realized_pl := 0; stdout := [] |}.

Definition process_transactions (transactions : list Row) : Ledger :=
  fold_left process_row transactions initial.
End Ledger.

(* ================================================================= *)
(** ** The valuation: [simulate_portfolio] *)

(** [for lot in data.lots: total_cost += lot.shares * lot.cost_per_share]. *)
Definition cost_of_lots (queue : list Lot) : Qc :=
  fold_left (fun total lot => total + shares lot * cost_per_share lot) queue 0.

(** The four assignments to the entry's derived fields. *)
Definition annotate (data : HoldingsData) (price value cost pl : Qc)
  : HoldingsData :=
  {| lots := lots data; total_shares := total_shares data;
     current_price := Some price; current_value := Some value;
     total_cost := Some cost; unrealized_pl := Some pl |}.

(** [for instrument, data in holdings.items()], with the two running totals
    and the output as accumulators; the entries come back in their order. *)
Fixpoint simulate_loop (items : Holdings)
    (total_current_value total_unrealized_pl : Qc) (out : list Message)
  : Holdings * Qc * Qc * list Message :=
  match items with
  | [] => ([], total_current_value, total_unrealized_pl, out)
  | (instrument, data) :: rest =>
      if Qcltb 0 (total_shares data) then
        match dict_get FIXED_PRICES instrument with
        | None =>
            let '(h, v, u, o) :=
              simulate_loop rest total_current_value total_unrealized_pl
                (out ++ [WarnNoFixedPrice instrument]) in
            ((instrument, data) :: h, v, u, o)
        | Some price =>
            let total_value := total_shares data * price in
            let cost := cost_of_lots (lots data) in
            let pl := total_value - cost in
            let '(h, v, u, o) :=
              simulate_loop rest (total_current_value + total_value)
                (total_unrealized_pl + pl) out in
            ((instrument, annotate data price total_value cost pl) :: h, v, u, o)
        end
      else
        let '(h, v, u, o) :=
          simulate_loop rest total_current_value total_unrealized_pl out in
        ((instrument, data) :: h, v, u, o)
  end.

(** The result tuple [(holdings, total_current_value, total_profit,
    total_unrealized_pl, realized_pl)], and what was printed. *)
Definition simulate_portfolio (h : Holdings) (pl : Qc)
  : (Holdings * Qc * Qc * Qc * Qc) * list Message :=
  let '(h', total_current_value, total_unrealized_pl, out) :=
    simulate_loop h 0 0 [] in
  let total_profit := pl + total_unrealized_pl in
  ((h', total_current_value, total_profit, total_unrealized_pl, pl), out).

(* ================================================================= *)
(** ** The target-profit solver: [calculate_shares_to_sell] *)

(** The four accumulators of the solver's inner loop. *)
Record Acc : Type := mkAcc
  { shares_to_sell : Qc;
    realized_profit : Qc;
    total_proceeds : Qc;
    total_cost_basis : Qc }.

Definition acc0 : Acc :=
  {| shares_to_sell := 0; realized_profit := 0;
     total_proceeds := 0; total_cost_basis := 0 |}.

(** [for lot in data.lots] with its [break].  The loop variable [lot] is a
    local of the whole function and outlives the loop: [bound] is its binding
    on entry ([None]: not yet bound), the first component of the result its
    binding on exit.  On [break] it is bound to the lot the test was made
    at, which has not been accumulated. *)
Fixpoint accumulate (price desired_profit : Qc) (queue : list Lot)
    (bound : option Lot) (acc : Acc) {struct queue} : option Lot * Acc :=
  match queue with
  | [] => (bound, acc)
  | lot :: rest =>
      if Qcleb desired_profit (realized_profit acc) then (Some lot, acc)
      else
        let sellable_shares := shares lot in
        let proceeds := sellable_shares * price in
        let cost_basis := sellable_shares * cost_per_share lot in
        let profit := proceeds - cost_basis in
        accumulate price desired_profit rest (Some lot)
          {| shares_to_sell := shares_to_sell acc + sellable_shares;
             realized_profit := realized_profit acc + profit;
             total_proceeds := total_proceeds acc + proceeds;
             total_cost_basis := total_cost_basis acc + cost_basis |}
  end.

Inductive Exception : Type := UnboundLocalError.

(** The shares of [lot] that make up [excess_profit] at [price]:
    [excess_profit / (current_price - lot.cost_per_share)], and 0 when the
    price is the lot's cost. *)
Definition excess_shares_in (lot : Lot) (price excess_profit : Qc) : Qc :=
  if Qcneqb price (cost_per_share lot)
  then excess_profit / (price - cost_per_share lot)
  else 0.

(** The body of the outer loop for an entry that passed its guard: the
    binding of [lot] on exit, and the plan printed or the exception raised
    when [lot] is read unbound. *)
Definition plan_sale (instrument : string) (queue : list Lot)
    (price desired_profit : Qc) (bound : option Lot)
  : option Lot * (Message + Exception) :=
  let '(bound', acc) := accumulate price desired_profit queue bound acc0 in
  if Qcleb desired_profit (realized_profit acc) then
    match bound' with
    | None => (bound', inr UnboundLocalError)
    | Some lot =>
        let excess_profit := realized_profit acc - desired_profit in
        let excess_shares := excess_shares_in lot price excess_profit in
        (bound',
         inl (ToRealize instrument desired_profit
                (shares_to_sell acc - excess_shares)
                price
                (total_proceeds acc - excess_shares * price)
                (total_cost_basis acc - excess_shares * cost_per_share lot)
                desired_profit))
    end
  else
    (bound',
     inl (NotEnough instrument desired_profit
            (shares_to_sell acc) (realized_profit acc))).

(** [data.total_shares > 0 and data.current_price]: the price when the guard
    holds ([None] and [0.0] are false). *)
Definition solvable (data : HoldingsData) : option Qc :=
  if Qcltb 0 (total_shares data) then
    match current_price data with
    | Some price => if Qcneqb price 0 then Some price else None
    | None => None
    end
  else None.

(** [for instrument, data in holdings.items()]; an exception ends it. *)
Fixpoint solver_loop (items : Holdings) (desired_profit : Qc)
    (bound : option Lot) (out : list Message)
  : list Message * option Exception :=
  match items with
  | [] => (out, None)
  | (instrument, data) :: rest =>
      match solvable data with
      | Some price =>
          match plan_sale instrument (lots data) price desired_profit bound with
          | (bound', inl m) => solver_loop rest desired_profit bound' (out ++ [m])
          | (_, inr e) => (out, Some e)
          end
      | None => solver_loop rest desired_profit bound out
      end
  end.

Definition calculate_shares_to_sell (h : Holdings) (desired_profit : Qc)
  : list Message * option Exception :=
  solver_loop h desired_profit None [Calculating desired_profit].

(** Lines 343 to 357 of [main]: the valuation, then the solver on the
    holdings the valuation returned.  The result is the portfolio state
    afterwards, and everything printed. *)
Definition valuation_then_solver (h : Holdings) (pl desired_profit : Qc)
  : Holdings * Qc * list Message :=
  let '((h', _, _, _, pl'), out) := simulate_portfolio h pl in
  let '(out', _) := calculate_shares_to_sell h' desired_profit in
  (h', pl', out ++ out').

(* ================================================================= *)
(** ** A decimal reader, for running the program on concrete rows *)

(** [float] on the plain decimal notation the extractor writes: an optional
    sign, digits, at most one point, at least one digit.  (Python's [float]
    reads more: exponents, [inf], [nan], underscores.  The theorems below
    hold for any reader; this one instantiates them.) *)
Definition digit_value (c : ascii) : option Z :=
  let n := nat_of_ascii c in
  if Nat.leb 48 n && Nat.leb n 57 then Some (Z.of_nat (n - 48)) else None.

Fixpoint read_digits (s : string) (num : Z) (den : positive)
    (seen_point seen_digit : bool) : option (Z * positive) :=
  match s with
  | EmptyString => if seen_digit then Some (num, den) else None
  | String c s' =>
      if Ascii.eqb c "."%char then
        if seen_point then None else read_digits s' num den true seen_digit
      else
        match digit_value c with
        | Some d =>
            read_digits s' (10 * num + d)%Z
              (if seen_point then (10 * den)%positive else den) seen_point true
        | None => None
        end
  end.

Definition decimal (s : string) : option Qc :=
  let unsigned (s : string) (sign : Z) :=
    match read_digits s 0%Z 1%positive false false with
    | Some (n, d) => Some (Q2Qc ((sign * n)%Z # d))
    | None => None
    end in
  match s with
  | String "-"%char s' => unsigned s' (-1)%Z
  | String "+"%char s' => unsigned s' 1%Z
  | _ => unsigned s 1%Z
  end.

(* ================================================================= *)
(** ** Decidable equality of the data, to compare computed results *)

Definition option_eq_dec {A : Type} (dec : forall x y : A, {x = y} + {x <> y})
  : forall x y : option A, {x = y} + {x <> y}.
Proof. decide equality. Defined.

Definition Lot_eq_dec : forall x y : Lot, {x = y} + {x <> y}.
Proof. decide equality; (apply Qc_eq_dec || apply string_dec). Defined.

Definition HoldingsData_eq_dec : forall x y : HoldingsData, {x = y} + {x <> y}.
Proof.
  decide equality;
    (apply (option_eq_dec Qc_eq_dec) || apply Qc_eq_dec
     || apply (list_eq_dec Lot_eq_dec)).
Defined.

Definition Holdings_eq_dec : forall x y : Holdings, {x = y} + {x <> y}.
Proof.
  apply list_eq_dec. decide equality;
    (apply HoldingsData_eq_dec || apply string_dec).
Defined.

Definition Row_eq_dec : forall x y : Row, {x = y} + {x <> y}.
Proof.
  decide equality.
  - apply list_eq_dec. decide equality; apply string_dec.
  - apply option_eq_dec. decide equality; apply PeanoNat.Nat.eq_dec.
Defined.

Definition Message_eq_dec : forall x y : Message, {x = y} + {x <> y}.
Proof.
  decide equality;
    (apply Qc_eq_dec || apply string_dec || apply Row_eq_dec).
Defined.

Definition Ledger_eq_dec : forall x y : Ledger, {x = y} + {x <> y}.
Proof.
  decide equality;
    (apply Qc_eq_dec || apply Holdings_eq_dec
     || apply (list_eq_dec Message_eq_dec)).
Defined.

(* ================================================================= *)
(** ** Vocabulary of the specification *)

(** [sum(lot.shares for lot in lots)]. *)
Definition sum_shares (queue : list Lot) : Qc :=
  fold_right (fun lot total => shares lot + total) 0 queue.


(** [sum(lot.shares * lot.cost_per_share for lot in lots)]. *)
Definition cost_basis_of (queue : list Lot) : Qc :=
  fold_right (fun lot total => shares lot * cost_per_share lot + total) 0 queue.

Definition positive_lot (lot : Lot) : Prop := 0 < shares lot.



(* ================================================================= *)
(** ** Concrete data of the specification's examples *)

Definition world : string := "amundi msci world v (acc)".

Definition entry_of (queue : list Lot) (total : Qc) : HoldingsData :=
  {| lots := queue; total_shares := total;
     current_price := None; current_value := None;
     total_cost := None; unrealized_pl := None |}.

(** Lots [{10 shares @ 5}, {10 shares @ 7}]. *)
Definition lot_a : Lot := mkLot "2024-01-02" (QcZ 10) (QcZ 5).
Definition lot_b : Lot := mkLot "2024-02-01" (QcZ 10) (QcZ 7).

Definition two_lots : Ledger :=
  {| holdings := [(world, entry_of [lot_a; lot_b] (QcZ 20))];
     realized_pl := 0;
     stdout := [] |}.

Definition row_of (d : datetime) (type name shares_cell amount_cell : string)
  : Row :=
  {| Date := Some d;
     cells := [ ("Amount", amount_cell); ("Instrument Name", name);
                ("Shares", shares_cell); ("Transaction Type", type) ] |}.

(** A sale of 15 shares for 150, and one of 25 shares for 250. *)
Definition sell_15 : Row :=
  row_of (mkDate 2024 3 1) "Sell" "Amundi MSCI World V (Acc)" "15" "€150.00".
Definition sell_25 : Row :=
  row_of (mkDate 2024 3 1) "Swap out" "Amundi MSCI World V (Acc)" "25" "250".

(** A sale of no share, and a distribution of 12.34. *)
Definition sell_0 : Row :=
  row_of (mkDate 2024 3 1) "Sell" "Amundi MSCI World V (Acc)" "0" "0".
Definition distribution_12_34 : Row :=
  {| Date := Some (mkDate 2024 3 1);
     cells := [ ("Amount", "€12.34"); ("Description", "Dividend");
                ("Transaction Type", "Distribution") ] |}.

(** The profit a disposal of [s] shares at [price] realizes on [queue]
    under the ledger's FIFO rule, and the cost basis of the shares sold. *)
Definition fifo_profit (price : Qc) (queue : list Lot) (s : Qc) : Qc :=
  let '(_, _, _, pl) := fifo_disposal price queue s 0 0 in pl.

Definition fifo_cost (price : Qc) (queue : list Lot) (s : Qc) : Qc :=
  s * price - fifo_profit price queue s.


(** Lots [{10 shares @ 5}, {10 shares @ 6}]. *)
Definition lot_c : Lot := mkLot "2024-02-01" (QcZ 10) (QcZ 6).

Definition Outcome_eq_dec :
  forall x y : option Lot * (Message + Exception), {x = y} + {x <> y}.
Proof.
  repeat decide equality;
    (apply Qc_eq_dec || apply string_dec || apply Row_eq_dec).
Defined.

(** The price at which the valuation values an entry: the entry holds
    shares and the table has its instrument. *)
Definition valued_at (kv : string * HoldingsData) : option Qc :=
  if Qcltb 0 (total_shares (snd kv))
  then dict_get FIXED_PRICES (fst kv)
  else None.

Definition value_of (kv : string * HoldingsData) : Qc :=
  match valued_at kv with
  | Some price => total_shares (snd kv) * price
  | None => 0
  end.

Definition unrealized_of (kv : string * HoldingsData) : Qc :=
  match valued_at kv with
  | Some price =>
      total_shares (snd kv) * price - cost_basis_of (lots (snd kv))
  | None => 0
  end.

(** The entry as the valuation leaves it. *)
Definition valuation (kv : string * HoldingsData) : string * HoldingsData :=
  match valued_at kv with
  | Some price =>
      (fst kv,
       annotate (snd kv) price
         (total_shares (snd kv) * price)
         (cost_basis_of (lots (snd kv)))
         (total_shares (snd kv) * price - cost_basis_of (lots (snd kv))))
  | None => kv
  end.

(** The entry holds shares and the table has no price for it. *)
Definition unpriced (kv : string * HoldingsData) : bool :=
  Qcltb 0 (total_shares (snd kv)) && negb (dict_mem FIXED_PRICES (fst kv)).

Definition sum_over (f : string * HoldingsData -> Qc) (h : Holdings) : Qc :=
  fold_right (fun kv total => f kv + total) 0 h.

(** Two entries under one key with the same lots and the same total: they
    differ at most in the four derived fields. *)
Definition same_position (kv kv' : string * HoldingsData) : Prop :=
  fst kv = fst kv' /\
  lots (snd kv) = lots (snd kv') /\
  total_shares (snd kv) = total_shares (snd kv').

(** Ten shares of a priced instrument bought at 5, and ten of one the
    price table does not know. *)
Definition priced_and_unpriced : Holdings :=
  [ ("unlisted etf", entry_of [lot_b] (QcZ 10));
    (world, entry_of [lot_a] (QcZ 10)) ].

Definition Valuation_eq_dec :
  forall x y : (Holdings * Qc * Qc * Qc * Qc) * list Message,
    {x = y} + {x <> y}.
Proof.
  repeat decide equality;
    (apply Qc_eq_dec || apply string_dec || apply Row_eq_dec
     || apply HoldingsData_eq_dec).
Defined.


(** The warnings of the valuation, in the order of the entries. *)
Definition price_warnings (h : Holdings) : list Message :=
  map (fun kv => WarnNoFixedPrice (fst kv)) (filter unpriced h).


(** Every lot of every entry holds a positive number of shares. *)
Definition positive_ledger (h : Holdings) : Prop :=
  Forall (fun kv => Forall positive_lot (lots (snd kv))) h.

(** The rows that acquire do so for a positive number of shares. *)
Definition buys_positive (py_float : string -> option Qc) (row : Row) : Prop :=
  forall s,
    str_in (transaction_type row) ["Buy"; "Savings Plan"; "Swap in"] = true ->
    py_float (shares_str row) = Some s ->
    0 < s.


Definition Printed_eq_dec :
  forall x y : list Message * option Exception, {x = y} + {x <> y}.
Proof.
  repeat decide equality;
    (apply Qc_eq_dec || apply string_dec || apply Row_eq_dec).
Defined.

(** The two lots [{10 @ 5}, {10 @ 6}] as the valuation would leave them at
    a price of 10, and the single lot [{10 @ 5}] likewise. *)
Definition two_lots_at_10 : Holdings :=
  [(world,
    annotate (entry_of [lot_a; lot_c] (QcZ 20))
      (QcZ 10) (QcZ 200) (QcZ 110) (QcZ 90))].


(** Two purchases of 10 shares, for 50 and for 70. *)
Definition buy_10_for_50 : Row :=
  row_of (mkDate 2024 1 2) "Buy" "Amundi MSCI World V (Acc)" "10" "-50.00".
Definition buy_10_for_70 : Row :=
  row_of (mkDate 2024 2 1) "Savings Plan" "Amundi MSCI World V" "10" "-70.00".

(* ================================================================= *)
(** ** Further vocabulary *)

(** The price of a disposal: [amount / shares], and 0 for no share. *)
Definition sale_price (amount s : Qc) : Qc :=
  if Qcneqb s 0 then amount / s else 0.

(** The locals of a row read as numbers. *)
Definition reads_as (py_float : string -> option Qc) (row : Row)
    (amount s : Qc) : Prop :=
  py_float (amount_str row) = Some amount /\
  py_float (shares_str row) = Some s.

(** A row that can change the realized P&L. *)
Definition realizes (row : Row) : bool :=
  str_in (transaction_type row) ["Sell"; "Swap out"; "Distribution"].

(** No lot was bought at a negative cost. *)
Definition costs_nonneg (h : Holdings) : Prop :=
  Forall (fun kv => Forall (fun lot => 0 <= cost_per_share lot) (lots (snd kv))) h.

(** The ledger has not written the fields the valuation derives. *)
Definition unvalued (data : HoldingsData) : Prop :=
  current_price data = None /\ current_value data = None /\
  total_cost data = None /\ unrealized_pl data = None.

(** [new] is [old] after lots left at its front: a suffix of [old] whose
    first lot holds the shares it held or fewer of them, and more than none
    when it holds fewer. *)
Definition front_reduced (old new : list Lot) : Prop :=
  exists k,
    match skipn k old with
    | [] => new = []
    | lot :: rest =>
        exists x,
          new = with_lot_shares lot x :: rest /\
          (x = shares lot \/ (0 < x /\ x < shares lot))
    end.

(** The keys of a dictionary, in its order. *)
Definition keys {V : Type} (d : list (string * V)) : list string := map fst d.

(** An entry with shares, a price and no lot. *)
Definition shares_without_lots : Holdings :=
  [(world,
    annotate (entry_of [] (QcZ 5)) (QcZ 10) (QcZ 50) 0 (QcZ 50))].

(** The entry passes the guard of the solver's outer loop. *)
Definition plannable (kv : string * HoldingsData) : bool :=
  match solvable (snd kv) with Some _ => true | None => false end.

(** The solver reads its loop variable [lot] unbound: the target is 0 or
    less, and the first entry that passes the guard has no lot. *)
Definition reads_lot_unbound (h : Holdings) (desired_profit : Qc) : bool :=
  match filter plannable h with
  | kv :: _ =>
      match lots (snd kv) with
      | [] => Qcleb desired_profit 0
      | _ :: _ => false
      end
  | [] => false
  end.

(** A name of ASCII characters only: on these the byte-wise [lower] is
    Python's [str.lower], which also lowers letters beyond ASCII. *)
Fixpoint is_ascii (s : string) : bool :=
  match s with
  | EmptyString => true
  | String c s' => Nat.ltb (nat_of_ascii c) 128 && is_ascii s'
  end.

(** The row is an acquisition. *)
Definition acquires (row : Row) : bool :=
  str_in (transaction_type row) ["Buy"; "Savings Plan"; "Swap in"].


(* ================================================================= *)
(** ** The sequencer: [read_and_parse_transactions] *)

(** The order of [datetime] values (all at midnight): by year, then month,
    then day. *)
Definition datetime_leb (a b : datetime) : bool :=
  Nat.ltb (year a) (year b)
  || (Nat.eqb (year a) (year b)
      && (Nat.ltb (month a) (month b)
          || (Nat.eqb (month a) (month b) && Nat.leb (day a) (day b)))).

(** [datetime.min]. *)
Definition datetime_min : datetime := mkDate 1 1 1.

(** The key of the sort: [x['Date'] if x['Date'] is not None else
    datetime.min]. *)
Definition sort_key (row : Row) : datetime :=
  match Date row with Some d => d | None => datetime_min end.

(** [list.sort(key=...)] is stable and ascending: it returns the one
    ordering by key that keeps rows of equal key in their order (see
    [sort_by_date_unique]).  Here: insertion from the right, a row going in
    front of the first row whose key is not smaller. *)
Fixpoint insert_by_date (row : Row) (sorted : list Row) : list Row :=
  match sorted with
  | [] => [row]
  | r :: rest =>
      if datetime_leb (sort_key row) (sort_key r)
      then row :: sorted
      else r :: insert_by_date row rest
  end.

Definition sort_by_date (rows : list Row) : list Row :=
  fold_right insert_by_date [] rows.

(** The warning of the sequencer, with the row as read. *)
Inductive DateWarning : Type :=
| InvalidDateFormat (row : list (string * string)).

Section Sequencer.
(** [datetime.strptime(s, '%Y-%m-%d')]; [None] stands for [ValueError]. *)
Variable strptime : string -> option datetime.

(** The first loop, on one row of the file: the entry under ['Date'] is
  replaced by the date read, or by [None]; here it becomes the field
  [Date], and the cells are kept. *)
Definition parse_date_of (row : list (string * string)) : Row :=
{| Date :=
     strptime
       (strip (match dict_get row "Date" with
               | Some v => v
               | None => EmptyString
               end));
   cells := row |}.

(** The rows of the file in, the rows sorted and the warnings out. *)
Definition read_and_parse_transactions (file : list (list (string * string)))
: list Row * list DateWarning :=
(sort_by_date (map parse_date_of file),
 map InvalidDateFormat
   (filter (fun row => match Date (parse_date_of row) with
                       | Some _ => false
                       | None => true
                       end) file)).
End Sequencer.

(** Sorted by date, and of the same rows in the same order under every
    date. *)
Definition date_sorted (rows : list Row) : Prop :=
  StronglySorted
    (fun a b => datetime_leb (sort_key a) (sort_key b) = true) rows.

Definition datetime_eq_dec : forall a b : datetime, {a = b} + {a <> b}.
Proof. decide equality; apply PeanoNat.Nat.eq_dec. Defined.

Definition dated (d : datetime) (row : Row) : bool :=
  if datetime_eq_dec (sort_key row) d then true else false.

Definition same_order_by_date (rows rows' : list Row) : Prop :=
  forall d, filter (dated d) rows' = filter (dated d) rows.

(** A reader of ISO dates that knows the year 2024. *)
Definition two_digits (s : string) : option nat :=
  match s with
  | String a (String b EmptyString) =>
      match digit_value a, digit_value b with
      | Some x, Some y => Some (Z.to_nat (10 * x + y))
      | _, _ => None
      end
  | _ => None
  end.

Definition strptime_2024 (s : string) : option datetime :=
  if String.prefix "2024-" s && Nat.eqb (String.length s) 10
     && Ascii.eqb (match String.get 7 s with Some c => c | None => " "%char end)
          "-"%char
  then
    match two_digits (String.substring 5 2 s), two_digits (String.substring 8 2 s)
    with
    | Some m, Some d =>
        if Nat.leb 1 m && Nat.leb m 12 && Nat.leb 1 d && Nat.leb d 28
        then Some (mkDate 2024 m d) else None
    | _, _ => None
    end
  else None.

(** Three rows of a file, out of order, the last without a readable date. *)
Definition file_of_three : list (list (string * string)) :=
  [ [("Date", "2024-03-01"); ("Transaction Type", "Sell")];
    [("Date", "2024-01-02"); ("Transaction Type", "Buy")];
    [("Date", "0000-00-00"); ("Transaction Type", "Deposit")] ].

(** The same three rows in another order of the file. *)
Definition file_of_three_reordered : list (list (string * string)) :=
  [ [("Date", "2024-01-02"); ("Transaction Type", "Buy")];
    [("Date", "0000-00-00"); ("Transaction Type", "Deposit")];
    [("Date", "2024-03-01"); ("Transaction Type", "Sell")] ].

(* ================================================================= *)
(** * The extractor: [extract_transaction_history.py] *)

(** From the lines of a statement to the records that [write_csv] writes.
    Strings are the UTF-8 bytes of the text: an operation that counts
    characters ([s[1:]], [s[:-5]]) drops whole characters, a character being
    a byte that is no continuation byte and the continuation bytes behind
    it. *)

Module Extract.

Definition transaction_types : list string :=
  [ "Deposit"; "Withdrawal"; "Savings Plan"; "Buy"; "Sell"; "Distribution";
    "Swap in"; "Swap out" ].

(** A byte [10xxxxxx]. *)
Definition is_continuation (c : ascii) : bool :=
  let n := nat_of_ascii c in Nat.leb 128 n && Nat.leb n 191.

(** [s[1:]]. *)
Fixpoint drop_continuation (s : string) : string :=
  match s with
  | String c s' => if is_continuation c then drop_continuation s' else s
  | EmptyString => EmptyString
  end.

Definition drop_first (s : string) : string :=
  match s with
  | String _ s' => drop_continuation s'
  | EmptyString => EmptyString
  end.

(** [s[:-1]], on the reversed bytes. *)
Fixpoint drop_last_rev (bytes : list ascii) : list ascii :=
  match bytes with
  | c :: rest => if is_continuation c then drop_last_rev rest else rest
  | [] => []
  end.

(** [s[:-5]]. *)
Definition drop_last_5 (s : string) : string :=
  string_of_list_ascii
    (rev (drop_last_rev (drop_last_rev (drop_last_rev (drop_last_rev
       (drop_last_rev (rev (list_ascii_of_string s)))))))).

Definition startswith (s start : string) : bool := String.prefix start s.

Definition endswith (s suffix : string) : bool :=
  String.prefix (rev_string suffix) (rev_string s).

(** Where the control is between two lines: in the outer loop; behind a
    line that names a type, before the test for ['Rejected']; in the loop
    that skips a rejected transaction; in the loop that reads the details of
    a transaction. *)
Inductive Mode : Type := Outer | AfterType | SkipRejected | Details.

(** The locals of [process_transactions]. *)
Record State : Type := mkState
  { transactions : list (list (string * string));
    current_date : string;
    current_transaction : list (string * string);
    transaction_type : string;
    mode : Mode }.

Definition initial : State :=
  {| transactions := [];
     current_date := "0000-00-00";
     current_transaction := [];
     transaction_type := EmptyString;
     mode := Outer |}.

Section Extractor.
(** [datetime.strptime(line, '%A, %d %B %Y')]; [None] stands for
  [ValueError]. *)
Variable strptime : string -> option datetime.

Definition is_date (line : string) : bool :=
match strptime line with Some _ => true | None => false end.

(** [parse_date], called on lines that are dates. *)
Definition parse_date (line : string) : string :=
match strptime line with
| Some d => strftime d
| None => EmptyString
end.

Definition fresh (date type : string) : list (string * string) :=
[("Date", date); ("Transaction Type", type)].

(** One pass of the outer loop on a line that it reads (stripped). *)
Definition outer (st : State) (line : string) : State :=
if String.eqb line EmptyString then
  {| transactions := transactions st; current_date := current_date st;
     current_transaction := current_transaction st;
     transaction_type := transaction_type st; mode := Outer |}
else if is_date line then
  {| transactions := transactions st; current_date := parse_date line;
     current_transaction := current_transaction st;
     transaction_type := transaction_type st; mode := Outer |}
else if str_in line transaction_types then
  {| transactions := transactions st; current_date := current_date st;
     current_transaction := fresh (current_date st) line;
     transaction_type := line; mode := AfterType |}
else
  {| transactions := transactions st; current_date := current_date st;
     current_transaction := current_transaction st;
     transaction_type := transaction_type st; mode := Outer |}.

(** One pass of the loop on the details; a date or a type leaves the loop
  and is read by the outer loop. *)
Definition details (st : State) (next_line : string) : State :=
if is_date next_line || str_in next_line transaction_types then
  outer st next_line
else if endswith next_line "Shr." then
  let shares := strip (drop_last_5 next_line) in
  {| transactions := transactions st; current_date := current_date st;
     current_transaction := dict_set (current_transaction st) "Shares" shares;
     transaction_type := transaction_type st; mode := Details |}
else if startswith next_line "€" then
  let amount := strip (drop_first next_line) in
  {| transactions :=
       transactions st
       ++ [dict_set (current_transaction st) "Amount" amount];
     current_date := current_date st;
     current_transaction := fresh (current_date st) (transaction_type st);
     transaction_type := transaction_type st; mode := Details |}
else if str_in (transaction_type st) ["Deposit"; "Withdrawal"; "Distribution"]
then
  {| transactions := transactions st; current_date := current_date st;
     current_transaction :=
       dict_set (current_transaction st) "Description" next_line;
     transaction_type := transaction_type st; mode := Details |}
else
  {| transactions := transactions st; current_date := current_date st;
     current_transaction :=
       dict_set (current_transaction st) "Instrument Name" next_line;
     transaction_type := transaction_type st; mode := Details |}.

(** What the program does with [lines[i]], by the place of the control. *)
Definition step (st : State) (raw : string) : State :=
let line := strip raw in
match mode st with
| Outer => outer st line
| AfterType =>
    if String.eqb line "Rejected" then
      {| transactions := transactions st; current_date := current_date st;
         current_transaction := current_transaction st;
         transaction_type := transaction_type st; mode := SkipRejected |}
    else details st line
| SkipRejected =>
    if is_date line || str_in line transaction_types then outer st line
    else st
| Details => details st line
end.

Definition run (st : State) (lines : list string) : State :=
fold_left step lines st.

Definition process_transactions (lines : list string)
: list (list (string * string)) :=
transactions (run initial lines).
End Extractor.

(** A reader of long dates that knows two days. *)
Definition strptime_two_days (line : string) : option datetime :=
  if String.eqb line "Friday, 8 November 2024" then Some (mkDate 2024 11 8)
  else if String.eqb line "Monday, 11 November 2024"
  then Some (mkDate 2024 11 11)
  else None.

(** A statement: a purchase, a rejected purchase, a distribution. *)
Definition statement : list string :=
  [ "Friday, 8 November 2024";
    "Buy";
    "iShares Core MSCI Europe";
    "2.5 Shr.";
    "€ -197.40";
    "";
    "Savings Plan";
    "Rejected";
    "Amundi MSCI World V";
    "€ -50.00";
    "Monday, 11 November 2024";
    "Distribution";
    "Amundi MSCI Emerging Markets II";
    "€ 12.34" ].

End Extract.

(** A line that is neither a date nor the name of a type. *)
Definition plain (strptime : string -> option datetime) (raw : string)
  : Prop :=
  Extract.is_date strptime (strip raw) = false /\
  str_in (strip raw) Extract.transaction_types = false.

(** A line that is a date or the name of a type: it ends a transaction. *)
Definition heading (strptime : string -> option datetime) (raw : string)
  : Prop :=
  Extract.is_date strptime (strip raw)
  || str_in (strip raw) Extract.transaction_types = true.

(** Two states of the extractor in the outer loop with the same records
    and the same date: they may differ in the transaction last begun. *)
Definition same_outside (st st' : Extract.State) : Prop :=
  Extract.transactions st = Extract.transactions st' /\
  Extract.current_date st = Extract.current_date st' /\
  Extract.mode st = Extract.Outer /\
  Extract.mode st' = Extract.Outer.

(** The columns a record can have, and the types that carry a description
    where the others carry the name of an instrument. *)
Definition columns : list string :=
  ["Date"; "Transaction Type"; "Shares"; "Amount"; "Description";
   "Instrument Name"].

Definition cash_types : list string :=
  ["Deposit"; "Withdrawal"; "Distribution"].

(** A date as the extractor writes it: its initial value, or a date read
    and formatted. *)
Definition written_date (s : string) : Prop :=
  s = "0000-00-00" \/ exists d, s = strftime d.

(** What the ledger can rely on in a record. *)
Definition record_ok (r : list (string * string)) : Prop :=
  exists date type amount,
    dict_get r "Date" = Some date /\ written_date date /\
    dict_get r "Transaction Type" = Some type /\
    str_in type Extract.transaction_types = true /\
    dict_get r "Amount" = Some amount /\
    (forall k, In k (keys r) -> In k columns) /\
    (str_in type cash_types = true -> dict_get r "Instrument Name" = None) /\
    (str_in type cash_types = false -> dict_get r "Description" = None).

(** The same of the record under construction, which has no amount yet. *)
Definition partial_ok (st : Extract.State) : Prop :=
  dict_get (Extract.current_transaction st) "Date"
  = Some (Extract.current_date st) /\
  dict_get (Extract.current_transaction st) "Transaction Type"
  = Some (Extract.transaction_type st) /\
  str_in (Extract.transaction_type st) Extract.transaction_types = true /\
  dict_get (Extract.current_transaction st) "Amount" = None /\
  (forall k, In k (keys (Extract.current_transaction st)) -> In k columns) /\
  (str_in (Extract.transaction_type st) cash_types = true ->
   dict_get (Extract.current_transaction st) "Instrument Name" = None) /\
  (str_in (Extract.transaction_type st) cash_types = false ->
   dict_get (Extract.current_transaction st) "Description" = None).

Definition extractor_ok (st : Extract.State) : Prop :=
  Forall record_ok (Extract.transactions st) /\
  written_date (Extract.current_date st) /\
  (Extract.mode st = Extract.AfterType \/ Extract.mode st = Extract.Details ->
   partial_ok st).

(* ================================================================= *)
(** * The ledger on binary64 *)

(** The ledger once more, on the numbers the program computes with: a
    Python [float] is an IEEE 754 binary64 number, here [PrimFloat.float]
    with its operations (round to nearest, ties to even; [<?], [<=?] and
    [=?] are false on NaN).  Rows, messages and the locals read from a row
    are those above; the lots, the entries and the state carry floats. *)

Module Binary64.
Local Open Scope float_scope.

Record Lot : Type := mkLot
  { date : string;
    shares : float;
    cost_per_share : float }.

Record HoldingsData : Type := mkHoldingsData
  { lots : list Lot;
    total_shares : float;
    current_price : option float;
    current_value : option float;
    total_cost : option float;
    unrealized_pl : option float }.

Definition Holdings : Type := list (string * HoldingsData).

Record Ledger : Type := mkLedger
  { holdings : Holdings;
    realized_pl : float;
    stdout : list Message }.

Definition with_lot_shares (lot : Lot) (s : float) : Lot :=
  {| date := date lot; shares := s; cost_per_share := cost_per_share lot |}.

(** The [while shares_to_sell > 0 and lots] loop of a disposal; the result
    is the queue, [shares_to_sell], the entry's [total_shares] and
    [realized_pl] when the loop exits. *)
Fixpoint fifo_disposal (sale_price_per_share : float) (queue : list Lot)
    (shares_to_sell total pl : float) {struct queue}
  : list Lot * float * float * float :=
  match queue with
  | [] => (queue, shares_to_sell, total, pl)
  | lot :: rest =>
      if 0 <? shares_to_sell then
        let lot_shares := shares lot in
        if lot_shares <=? shares_to_sell then
          (* sell the entire lot *)
          let profit := (sale_price_per_share - cost_per_share lot) * lot_shares in
          fifo_disposal sale_price_per_share rest
            (shares_to_sell - lot_shares) (total - lot_shares) (pl + profit)
        else
          (* sell part of the lot *)
          let profit := (sale_price_per_share - cost_per_share lot) * shares_to_sell in
          (with_lot_shares lot (shares lot - shares_to_sell) :: rest,
           0, total - shares_to_sell, pl + profit)
      else (queue, shares_to_sell, total, pl)
  end.

Definition with_lots (data : HoldingsData) (l : list Lot) (t : float)
  : HoldingsData :=
  {| lots := l; total_shares := t;
     current_price := current_price data; current_value := current_value data;
     total_cost := total_cost data; unrealized_pl := unrealized_pl data |}.

Definition empty_entry : HoldingsData :=
  {| lots := []; total_shares := 0;
     current_price := None; current_value := None;
     total_cost := None; unrealized_pl := None |}.

Definition print (st : Ledger) (m : Message) : Ledger :=
  {| holdings := holdings st; realized_pl := realized_pl st;
     stdout := stdout st ++ [m] |}.

(** [amount / shares if shares != 0 else 0.0]. *)
Definition sale_price (amount s : float) : float :=
  if negb (s =? 0) then amount / s else 0.

Section Ledger.
(** Python's [float(str)]; [None] stands for [ValueError]. *)
Variable py_float : string -> option float.

Definition buy (st : Ledger) (instrument_canonical date : string)
    (amount shares : float) : Ledger :=
  let data :=
    match dict_get (holdings st) instrument_canonical with
    | Some data => data
    | None => empty_entry
    end in
  let cost_per_share :=
    if negb (shares =? 0) then abs (amount / shares) else 0 in
  {| holdings :=
       dict_set (holdings st) instrument_canonical
         (with_lots data
            (lots data ++ [mkLot date shares cost_per_share])
            (total_shares data + shares));
     realized_pl := realized_pl st;
     stdout := stdout st |}.

Definition sell (st : Ledger) (instrument_canonical : string)
    (amount shares : float) : Ledger :=
  match dict_get (holdings st) instrument_canonical with
  | Some data =>
      let sale_price_per_share := sale_price amount shares in
      let '(queue, shares_to_sell, total, pl) :=
        fifo_disposal sale_price_per_share (lots data) shares
          (total_shares data) (realized_pl st) in
      let st' :=
        {| holdings :=
             dict_set (holdings st) instrument_canonical
               (with_lots data queue total);
           realized_pl := pl;
           stdout := stdout st |} in
      if 0 <? shares_to_sell
      then print st' (WarnSoldMore instrument_canonical)
      else st'
  | None => print st (WarnNotInHoldings instrument_canonical)
  end.

(** One iteration of [for row in transactions]. *)
Definition process_row (st : Ledger) (row : Row) : Ledger :=
  if str_in (transaction_type row) ["Deposit"; "Withdrawal"] then st
  else if String.eqb (transaction_type row) "Distribution" then
    match py_float (amount_str row) with
    | Some amount =>
        {| holdings := holdings st;
           realized_pl := realized_pl st + amount;
           stdout := stdout st |}
    | None => print st (WarnInvalidDistribution row)
    end
  else
    match py_float (amount_str row), py_float (shares_str row) with
    | Some amount, Some shares =>
        if str_in (transaction_type row) ["Buy"; "Savings Plan"; "Swap in"]
        then buy st (instrument_canonical row) (date_str row) amount shares
        else if str_in (transaction_type row) ["Sell"; "Swap out"]
        then sell st (instrument_canonical row) amount shares
        else st
    | _, _ => print st (WarnSkippingInvalid row)
    end.

Definition initial : Ledger :=
  {| holdings := []; realized_pl := 0; stdout := [] |}.

Definition process_transactions (transactions : list Row) : Ledger :=
  fold_left process_row transactions initial.

(** The locals of a row read as numbers. *)
Definition reads_as (row : Row) (amount s : float) : Prop :=
  py_float (amount_str row) = Some amount /\
  py_float (shares_str row) = Some s.
End Ledger.

(* ----------------------------------------------------------------- *)
(** ** What a disposal does to a queue *)

(** The loop pops every lot of [popped] whole, in this order, when it
    starts with [shares_to_sell]: each lot is reached with shares still to
    sell and holds no more than is to sell when it is reached. *)
Fixpoint pops_whole (shares_to_sell : float) (popped : list Lot) : bool :=
  match popped with
  | [] => true
  | lot :: rest =>
      (0 <? shares_to_sell) && (shares lot <=? shares_to_sell)
      && pops_whole (shares_to_sell - shares lot) rest
  end.

(** [shares_to_sell], [total_shares] and [realized_pl] once the lots of
    [popped] are popped: the program's subtractions and additions, lot by
    lot. *)
Definition remaining_after (shares_to_sell : float) (popped : list Lot)
  : float :=
  fold_left (fun r lot => r - shares lot) popped shares_to_sell.

Definition total_after (total : float) (popped : list Lot) : float :=
  fold_left (fun t lot => t - shares lot) popped total.

Definition realized_after (price pl : float) (popped : list Lot) : float :=
  fold_left (fun p lot => p + (price - cost_per_share lot) * shares lot)
    popped pl.

(** The disposal runs out of lots with shares left to sell: the condition
    under which the program prints its warning. *)
Definition oversold (shares_to_sell : float) (queue : list Lot) : bool :=
  pops_whole shares_to_sell queue
  && (0 <? remaining_after shares_to_sell queue).

(* ----------------------------------------------------------------- *)
(** ** The value of a float, and operations that do not round *)

(** Neither an infinity nor NaN. *)
Definition finite (x : float) : bool :=
  match Prim2SF x with
  | S754_zero _ | S754_finite _ _ _ => true
  | _ => false
  end.

(** The rational a finite float stands for: [(-1)^s * m * 2^e]. *)
Definition exact (x : float) : Qc :=
  match Prim2SF x with
  | S754_finite s m e =>
      Q2Qc ((if s then -1 else 1) * inject_Z (Zpos m) * Qpower 2 e)%Q
  | _ => 0%Qc
  end.

(** [x + y] and [x - y] are finite and were computed without rounding. *)
Definition adds_exactly (x y : float) : bool :=
  finite (x + y) && Qc_eq_bool (exact (x + y)) (exact x + exact y)%Qc.

Definition subtracts_exactly (x y : float) : bool :=
  finite (x - y) && Qc_eq_bool (exact (x - y)) (exact x - exact y)%Qc.

(** The sum of the shares of the lots, as a rational. *)
Definition sum_shares (queue : list Lot) : Qc :=
  fold_right (fun lot acc => (exact (shares lot) + acc)%Qc) 0%Qc queue.

(** The invariant of the specification, on the values of the floats. *)
Definition entry_consistent (data : HoldingsData) : Prop :=
  finite (total_shares data) = true /\
  exact (total_shares data) = sum_shares (lots data).

Definition ledger_consistent (h : Holdings) : Prop :=
  Forall (fun kv => entry_consistent (snd kv)) h.

(** No update of [total_shares] or of [lot.shares] in the loop of a
    disposal rounds. *)
Fixpoint disposal_rounds_nothing (queue : list Lot)
    (shares_to_sell total : float) {struct queue} : bool :=
  match queue with
  | [] => true
  | lot :: rest =>
      if 0 <? shares_to_sell then
        if shares lot <=? shares_to_sell then
          subtracts_exactly total (shares lot)
          && disposal_rounds_nothing rest
               (shares_to_sell - shares lot) (total - shares lot)
        else
          subtracts_exactly (shares lot) shares_to_sell
          && subtracts_exactly total shares_to_sell
      else true
  end.

(** The subtractions of the lots of [queue] from [total], in turn, do not
    round. *)
Fixpoint subtractions_exact (total : float) (queue : list Lot) : bool :=
  match queue with
  | [] => true
  | lot :: rest =>
      subtracts_exactly total (shares lot)
      && subtractions_exact (total - shares lot) rest
  end.

Section Rounding.
Variable py_float : string -> option float.

(** No update of [total_shares] or of [lot.shares] that the row causes
    rounds: the addition of an acquisition, the subtractions of a disposal.
    Rows that update no shares round nothing. *)
Definition row_rounds_nothing (st : Ledger) (row : Row) : bool :=
  match py_float (amount_str row), py_float (shares_str row) with
  | Some amount, Some s =>
      if str_in (transaction_type row) ["Buy"; "Savings Plan"; "Swap in"]
      then
        adds_exactly
          (match dict_get (holdings st) (instrument_canonical row) with
           | Some data => total_shares data
           | None => 0
           end) s
      else if str_in (transaction_type row) ["Sell"; "Swap out"] then
        match dict_get (holdings st) (instrument_canonical row) with
        | Some data =>
            disposal_rounds_nothing (lots data) s (total_shares data)
        | None => true
        end
      else true
  | _, _ => true
  end.

(** The same of every row of a history, each in the state the ledger has
    reached. *)
Fixpoint history_rounds_nothing (st : Ledger) (transactions : list Row)
  : bool :=
  match transactions with
  | [] => true
  | row :: rest =>
      row_rounds_nothing st row
      && history_rounds_nothing (process_row py_float st row) rest
  end.
End Rounding.

(* ----------------------------------------------------------------- *)
(** ** Concrete data *)

Definition of_Z (z : Z) : float := of_uint63 (Uint63.of_Z z).

(** A reader of decimal numerals for the concrete histories: the digits as
    an integer, divided by the power of ten of the digits behind the point.
    Both are floats without rounding for a numeral of at most 15 digits, and
    the division rounds once, to the float nearest to the numeral, as
    Python's [float] does.  (The theorems hold for any reader.) *)
Definition decimal (s : string) : option float :=
  let unsigned (s : string) :=
    match read_digits s 0%Z 1%positive false false with
    | Some (n, d) => Some (of_Z n / of_Z (Zpos d))
    | None => None
    end in
  match s with
  | String "-"%char s' => option_map opp (unsigned s')
  | String "+"%char s' => unsigned s'
  | _ => unsigned s
  end.

Definition entry_of (queue : list Lot) (total : float) : HoldingsData :=
  {| lots := queue; total_shares := total;
     current_price := None; current_value := None;
     total_cost := None; unrealized_pl := None |}.

(** Lots [{10 shares @ 5}, {10 shares @ 7}]. *)
Definition lot_a : Lot := mkLot "2024-01-02" 10 5.
Definition lot_b : Lot := mkLot "2024-02-01" 10 7.

Definition two_lots : Ledger :=
  {| holdings := [(world, entry_of [lot_a; lot_b] 20)];
     realized_pl := 0;
     stdout := [] |}.

(** A purchase and a sale of the given shares, for 1 euro. *)
Definition buy_of (shares_cell : string) : Row :=
  row_of (mkDate 2024 1 2) "Buy" "Amundi MSCI World V (Acc)" shares_cell "-1".

Definition sell_of (shares_cell : string) : Row :=
  row_of (mkDate 2024 3 1) "Sell" "Amundi MSCI World V (Acc)" shares_cell "1".

(** Purchases of 0.1, 0.2 and 0.3 shares, then a sale of 0.1. *)
Definition tenths : list Row :=
  [buy_of "0.1"; buy_of "0.2"; buy_of "0.3"; sell_of "0.1"].

(** Purchases of [10^16] shares and of one share, then a sale of [10^16]. *)
Definition large_and_one : list Row :=
  [buy_of "10000000000000000"; buy_of "1"; sell_of "10000000000000000"].

(** Purchases of 0.3, 0.3 and 0.4 shares. *)
Definition one_share_in_three : list Row :=
  [buy_of "0.3"; buy_of "0.3"; buy_of "0.4"].

(** Purchases of 0.1 and 0.3 shares, then a sale of 0.4. *)
Definition four_tenths : list Row :=
  [buy_of "0.1"; buy_of "0.3"; sell_of "0.4"].

End Binary64.

(* ================================================================= *)
(** * Proofs *)

(** ** Equalities by computation *)

(** Two computed values of [Qc] that are equal may differ in their proofs
    of canonicity, so that [reflexivity] does not see them equal: an
    equality between computed data is proved by running its decision. *)
Lemma by_decision {A : Type} (dec : forall x y : A, {x = y} + {x <> y})
    (x y : A) : (if dec x y then true else false) = true -> x = y.
Proof. destruct (dec x y); [trivial | discriminate]. Qed.

(** ** Arithmetic of [Qc] *)

Lemma Qc_eq_iff (x y : Qc) : x = y <-> (this x == this y)%Q.
Proof. split; [intros ->; reflexivity | apply Qc_is_canon]. Qed.

(** Goals of linear arithmetic over [Qc] are sent to [Q], where [lra]
    decides them. *)
Ltac qc_to_q :=
  repeat match goal with
    | H : @eq Qc _ _ |- _ => apply Qc_eq_iff in H
    | H : ~ @eq Qc _ _ |- _ => rewrite Qc_eq_iff in H
    | |- @eq Qc _ _ => apply Qc_is_canon
    | |- ~ @eq Qc _ _ => rewrite Qc_eq_iff
    end;
  unfold Qcle, Qclt, Qcminus, Qcplus, Qcmult, Qcopp, Q2Qc in *;
  cbn [this] in *;
  repeat rewrite Qred_correct in *.

Ltac qc_lra := qc_to_q; lra.

Lemma Qcleb_true (x y : Qc) : Qcleb x y = true <-> x <= y.
Proof. unfold Qcleb, Qcle. apply Qle_bool_iff. Qed.

Lemma Qcleb_false (x y : Qc) : Qcleb x y = false <-> y < x.
Proof.
  unfold Qcleb, Qclt. split; intro H.
  - apply Qnot_le_lt. intro L. apply Qle_bool_iff in L. congruence.
  - destruct (Qle_bool x y) eqn:E; trivial.
    apply Qle_bool_iff in E. exfalso. apply (Qlt_not_le _ _ H E).
Qed.

Lemma Qcltb_true (x y : Qc) : Qcltb x y = true <-> x < y.
Proof.
  unfold Qcltb. rewrite negb_true_iff. apply (Qcleb_false y x).
Qed.

Lemma Qcltb_false (x y : Qc) : Qcltb x y = false <-> y <= x.
Proof.
  unfold Qcltb. rewrite negb_false_iff. apply (Qcleb_true y x).
Qed.

Lemma Qc_eq_bool_true (x y : Qc) : Qc_eq_bool x y = true <-> x = y.
Proof.
  split; [apply Qc_eq_bool_correct |].
  intros ->. unfold Qc_eq_bool. destruct (Qc_eq_dec y y); congruence.
Qed.


(** ** Sums over a queue *)





(** ** The disposal loop *)

Lemma tuple4_eq {A B C D : Type} (a a' : A) (b b' : B) (c c' : C) (d d' : D) :
  a = a' -> b = b' -> c = c' -> d = d' -> (a, b, c, d) = (a', b', c', d').
Proof. congruence. Qed.

(** One iteration, by case. *)
Lemma fifo_disposal_stop price queue s total pl :
  s <= 0 -> fifo_disposal price queue s total pl = (queue, s, total, pl).
Proof.
  intro H. destruct queue as [|lot rest]; simpl; trivial.
  apply Qcltb_false in H. now rewrite H.
Qed.




(** ** Dictionaries *)

Lemma dict_set_get_id {V : Type} (d : list (string * V)) k v :
  dict_get d k = Some v -> dict_set d k v = d.
Proof.
  induction d as [|[k' v'] d IH]; simpl; [discriminate|].
  destruct (String.eqb k k') eqn:E.
  - congruence.
  - intro H. now rewrite IH.
Qed.

Lemma dict_get_In {V : Type} (d : list (string * V)) k v :
  dict_get d k = Some v -> In (k, v) d.
Proof.
  induction d as [|[k' v'] d IH]; simpl; [discriminate|].
  destruct (String.eqb_spec k k').
  - intros [= ->]. subst. now left.
  - intro H. right. auto.
Qed.

(** ** Which branch a row takes *)

Lemma str_in_cases x l : str_in x l = true <-> In x l.
Proof.
  unfold str_in. rewrite existsb_exists. split.
  - intros (y & Hy & E). apply String.eqb_eq in E. now subst.
  - intro H. exists x. split; [assumption | apply String.eqb_refl].
Qed.

Section Branches.
Variable py_float : string -> option Qc.

Lemma process_row_sell st row amount s :
  str_in (transaction_type row) ["Sell"; "Swap out"] = true ->
  py_float (amount_str row) = Some amount ->
  py_float (shares_str row) = Some s ->
  process_row py_float st row = sell st (instrument_canonical row) amount s.
Proof.
  intros Ht Ha Hs. unfold process_row. rewrite Ha, Hs, Ht.
  apply str_in_cases in Ht.
  destruct Ht as [E|[E|[]]]; rewrite <- E; reflexivity.
Qed.

Lemma process_row_distribution st row :
  transaction_type row = "Distribution" ->
  process_row py_float st row =
  match py_float (amount_str row) with
  | Some amount =>
      {| holdings := holdings st;
         realized_pl := realized_pl st + amount;
         stdout := stdout st |}
  | None => print st (WarnInvalidDistribution row)
  end.
Proof. intro Ht. unfold process_row. rewrite Ht. reflexivity. Qed.



End Branches.

(* ================================================================= *)
(** * The properties of the specification *)


(** What the reader makes of a cell. *)
Ltac reads :=
  apply (by_decision (option_eq_dec Qc_eq_dec)); vm_compute; reflexivity.

(** ** Properties of all entries *)

Lemma Forall_dict_set {V : Type} (P : string * V -> Prop) d k v :
  (forall k', P (k', v)) -> Forall P d -> Forall P (dict_set d k v).
Proof.
  intros Hv. induction 1 as [|[k' v'] d Hx Hd IH]; simpl.
  - constructor; auto.
  - destruct (String.eqb k k'); constructor; auto.
Qed.

(** ** C8: distributions *)

(** C8.  A [Distribution] whose amount reads as a number adds that amount to
    the realized P&L and changes nothing else: the holdings (no entry is
    created, no lot touched) and the output stay as they were; processed
    from the empty portfolio it leaves no Holdings Entry at all. *)
Theorem distribution_only_adds_amount
    (py_float : string -> option Qc) (st : Ledger) (row : Row) (amount : Qc) :
  transaction_type row = "Distribution" ->
  py_float (amount_str row) = Some amount ->
  process_row py_float st row =
  {| holdings := holdings st;
     realized_pl := realized_pl st + amount;
     stdout := stdout st |} /\
  process_transactions py_float [row] =
  {| holdings := []; realized_pl := amount; stdout := [] |}.
Proof.
  intros Ht Ha.
  assert (forall st', process_row py_float st' row =
                      {| holdings := holdings st';
                         realized_pl := realized_pl st' + amount;
                         stdout := stdout st' |}) as H
    by (intro st'; rewrite process_row_distribution, Ha; auto).
  split; [apply H|].
  unfold process_transactions. simpl. rewrite H. simpl.
  now rewrite Qcplus_0_l.
Qed.

Lemma distribution_of_12_34 :
  process_row decimal two_lots distribution_12_34 =
  {| holdings := holdings two_lots;
     realized_pl := realized_pl two_lots + Q2Qc (1234 # 100);
     stdout := stdout two_lots |} /\
  process_transactions decimal [distribution_12_34] =
  {| holdings := []; realized_pl := Q2Qc (1234 # 100); stdout := [] |}.
Proof.
  apply (distribution_only_adds_amount decimal two_lots distribution_12_34
           (Q2Qc (1234 # 100)) eq_refl ltac:(reads)).
Defined.

(** ** C10: a sale of no share *)

Lemma with_lots_same data :
  with_lots data (lots data) (total_shares data) = data.
Proof. now destruct data. Qed.

(** C10.  A [Sell] or [Swap out] whose shares read as 0, on an instrument
    that has an entry, leaves the holdings (so the entry's lots and
    [total_shares]) and the realized P&L as they were.  When the amount
    reads as a number nothing is printed and the state is the same state;
    otherwise the only message is the one for an invalid row: in neither
    case an over-sell or untracked-instrument warning. *)
Theorem zero_share_sale_is_noop
    (py_float : string -> option Qc) (st : Ledger) (row : Row)
    (data : HoldingsData) :
  str_in (transaction_type row) ["Sell"; "Swap out"] = true ->
  py_float (shares_str row) = Some 0 ->
  dict_get (holdings st) (instrument_canonical row) = Some data ->
  process_row py_float st row =
    match py_float (amount_str row) with
    | Some _ => st
    | None => print st (WarnSkippingInvalid row)
    end /\
  holdings (process_row py_float st row) = holdings st /\
  realized_pl (process_row py_float st row) = realized_pl st /\
  exists printed,
    stdout (process_row py_float st row) = stdout st ++ printed /\
    forall key, ~ In (WarnSoldMore key) printed /\
                ~ In (WarnNotInHoldings key) printed.
Proof.
  intros Ht Hs Hget.
  assert (process_row py_float st row =
          match py_float (amount_str row) with
          | Some _ => st
          | None => print st (WarnSkippingInvalid row)
          end) as H.
  { destruct (py_float (amount_str row)) as [amount|] eqn:Ha.
    - rewrite (process_row_sell py_float st row amount 0 Ht Ha Hs).
      unfold sell. rewrite Hget.
      rewrite fifo_disposal_stop by apply Qcle_refl.
      assert (Qcltb 0 0 = false) as -> by reflexivity.
      rewrite with_lots_same, (dict_set_get_id _ _ _ Hget).
      now destruct st.
    - unfold process_row. rewrite Ha.
      apply str_in_cases in Ht.
      destruct Ht as [E|[E|[]]]; rewrite <- E; reflexivity. }
  split; [exact H|]. rewrite H.
  destruct (py_float (amount_str row)).
  - repeat split; trivial. exists []. split.
    + now rewrite app_nil_r.
    + intro key. split; intros [].
  - repeat split; trivial. exists [WarnSkippingInvalid row]. split.
    + reflexivity.
    + intro key. split; intros [E|[]]; discriminate E.
Qed.

Lemma zero_share_sale_of_two_lots :
  process_row decimal two_lots sell_0 = two_lots.
Proof.
  apply (proj1 (zero_share_sale_is_noop decimal two_lots sell_0
                  (entry_of [lot_a; lot_b] (QcZ 20))
                  eq_refl ltac:(reads) eq_refl)).
Defined.

(** ** The examples of the specification, from the rows *)

(** Two purchases, then the sale of 15 shares for 150: profit 65, one lot
    of 5 shares at 7 left. *)
Example fold_buy_buy_sell_15 :
  process_transactions decimal [buy_10_for_50; buy_10_for_70; sell_15] =
  {| holdings :=
       [(world, entry_of [mkLot "2024-02-01" (QcZ 5) (QcZ 7)] (QcZ 5))];
     realized_pl := QcZ 65;
     stdout := [] |}.
Proof. apply (by_decision Ledger_eq_dec). vm_compute. reflexivity. Qed.

(** Two purchases, then the sale of 25 shares for 250: profit 80 on the 20
    shares there were, nothing left, one warning. *)
Example fold_buy_buy_sell_25 :
  process_transactions decimal [buy_10_for_50; buy_10_for_70; sell_25] =
  {| holdings := [(world, entry_of [] 0)];
     realized_pl := QcZ 80;
     stdout := [WarnSoldMore world] |}.
Proof. apply (by_decision Ledger_eq_dec). vm_compute. reflexivity. Qed.

(** ** The solver's loop *)








(** ** C6: an infeasible target *)



(** ** C3: the plan of a feasible target *)

(** The specification's example: one lot of 10 shares at 5, price 10,
    target 30.  The loop ends on the lot it accumulated, and the plan is
    6 shares, proceeds 60, cost basis 30. *)
Example plan_30_on_one_lot :
  plan_sale world [lot_a] (QcZ 10) (QcZ 30) None =
  (Some lot_a,
   inl (ToRealize world (QcZ 30) (QcZ 6) (QcZ 10) (QcZ 60) (QcZ 30) (QcZ 30))) /\
  fifo_profit (QcZ 10) [lot_a] (QcZ 6) = QcZ 30 /\
  fifo_cost (QcZ 10) [lot_a] (QcZ 6) = QcZ 30.
Proof.
  split; [|split].
  - apply (by_decision Outcome_eq_dec). vm_compute. reflexivity.
  - apply Qc_is_canon. reflexivity.
  - apply Qc_is_canon. reflexivity.
Qed.

(** C3 (the code departs from the claim).  With a second lot behind the
    one in which the target is reached, the loop leaves by [break] with
    [lot] bound to that second lot, which it has not accumulated, and the
    excess is priced at that lot's cost.  For lots [{10 @ 5}, {10 @ 6}],
    price 10 and target 30 the plan printed is 5 shares, proceeds 50, cost
    basis 20; a FIFO disposal of 5 shares costs 25 and realizes 25, not 30
    (the 6 shares of the one-lot example are what the target takes).  The
    call on the portfolio of that entry prints this plan. *)
Theorem plan_after_break_uses_next_lot :
  plan_sale world [lot_a; lot_c] (QcZ 10) (QcZ 30) None =
  (Some lot_c,
   inl (ToRealize world (QcZ 30) (QcZ 5) (QcZ 10) (QcZ 50) (QcZ 20) (QcZ 30))) /\
  calculate_shares_to_sell two_lots_at_10 (QcZ 30) =
  ([Calculating (QcZ 30);
    ToRealize world (QcZ 30) (QcZ 5) (QcZ 10) (QcZ 50) (QcZ 20) (QcZ 30)],
   None) /\
  fifo_cost (QcZ 10) [lot_a; lot_c] (QcZ 5) = QcZ 25 /\
  fifo_profit (QcZ 10) [lot_a; lot_c] (QcZ 5) = QcZ 25 /\
  fifo_profit (QcZ 10) [lot_a; lot_c] (QcZ 6) = QcZ 30.
Proof.
  split; [|split; [|split; [|split]]].
  - apply (by_decision Outcome_eq_dec). vm_compute. reflexivity.
  - apply (by_decision Printed_eq_dec). vm_compute. reflexivity.
  - apply Qc_is_canon. reflexivity.
  - apply Qc_is_canon. reflexivity.
  - apply Qc_is_canon. reflexivity.
Qed.

(** ** C5: targets of zero or less *)







(** ** C7: the valuation *)

Lemma cost_of_lots_from queue :
  forall start,
    fold_left (fun total lot => total + shares lot * cost_per_share lot)
      queue start
    = start + cost_basis_of queue.
Proof.
  induction queue as [|lot rest IH]; intro start; simpl.
  - ring.
  - rewrite IH. fold (cost_basis_of rest). ring.
Qed.

Lemma cost_of_lots_is_cost_basis queue :
  cost_of_lots queue = cost_basis_of queue.
Proof. unfold cost_of_lots. rewrite cost_of_lots_from. ring. Qed.

Lemma sum_over_cons f kv h : sum_over f (kv :: h) = f kv + sum_over f h.
Proof. reflexivity. Qed.

Lemma price_warnings_cons kv h :
  price_warnings (kv :: h) =
  (if unpriced kv then [WarnNoFixedPrice (fst kv)] else []) ++ price_warnings h.
Proof. unfold price_warnings. simpl. now destruct (unpriced kv). Qed.

Lemma simulate_loop_spec h :
  forall v u out,
    simulate_loop h v u out =
    (map valuation h, v + sum_over value_of h, u + sum_over unrealized_of h,
     out ++ price_warnings h).
Proof.
  induction h as [|[instrument data] h IH]; intros v u out.
  - simpl. apply tuple4_eq; try ring; auto. now rewrite app_nil_r.
  - cbn [simulate_loop map].
    rewrite !sum_over_cons, price_warnings_cons.
    unfold valuation at 1, value_of at 1, unrealized_of at 1, unpriced,
      valued_at, dict_mem.
    cbn [fst snd].
    destruct (Qcltb 0 (total_shares data)) eqn:Hpos.
    + destruct (dict_get FIXED_PRICES instrument) as [price|] eqn:Hprice.
      * rewrite IH, cost_of_lots_is_cost_basis.
        apply tuple4_eq; try reflexivity; ring.
      * rewrite IH. cbn [andb negb].
        apply tuple4_eq; try reflexivity; try ring.
        now rewrite <- app_assoc.
    + rewrite IH. cbn [andb app].
      apply tuple4_eq; try reflexivity; ring.
Qed.

Lemma simulate_portfolio_spec h pl :
  simulate_portfolio h pl =
  ((map valuation h,
    sum_over value_of h,
    pl + sum_over unrealized_of h,
    sum_over unrealized_of h,
    pl),
   price_warnings h).
Proof.
  unfold simulate_portfolio. rewrite simulate_loop_spec.
  rewrite !Qcplus_0_l. reflexivity.
Qed.

(** C7.  The valuation leaves every entry that holds shares and has a price
    in the table with [current_price] the table's price,
    [current_value = total_shares * current_price],
    [total_cost] the sum of [lot.shares * lot.cost_per_share] over its lots
    and [unrealized_pl = current_value - total_cost]; the totals are the
    sums of the value and of the unrealized P&L over those entries, and
    [total_profit = realized_pl + total_unrealized_pl].  An entry that holds
    shares and has no price is left as it was, adds 0 to both totals and is
    reported by one warning, while the other entries are valued. *)
Theorem valuation_totals (h : Holdings) (pl : Qc) :
  simulate_portfolio h pl =
  ((map valuation h,
    sum_over value_of h,
    pl + sum_over unrealized_of h,
    sum_over unrealized_of h,
    pl),
   price_warnings h) /\
  (forall instrument data price,
      0 < total_shares data ->
      dict_get FIXED_PRICES instrument = Some price ->
      valuation (instrument, data) =
      (instrument,
       {| lots := lots data; total_shares := total_shares data;
          current_price := Some price;
          current_value := Some (total_shares data * price);
          total_cost := Some (cost_basis_of (lots data));
          unrealized_pl :=
            Some (total_shares data * price - cost_basis_of (lots data)) |}) /\
      value_of (instrument, data) = total_shares data * price /\
      unrealized_of (instrument, data) =
      total_shares data * price - cost_basis_of (lots data) /\
      unpriced (instrument, data) = false) /\
  (forall instrument data,
      0 < total_shares data ->
      dict_get FIXED_PRICES instrument = None ->
      valuation (instrument, data) = (instrument, data) /\
      value_of (instrument, data) = 0 /\
      unrealized_of (instrument, data) = 0 /\
      unpriced (instrument, data) = true).
Proof.
  split; [|split].
  - apply simulate_portfolio_spec.
  - intros instrument data price Hpos Hprice.
    apply Qcltb_true in Hpos.
    unfold valuation, value_of, unrealized_of, unpriced, valued_at, dict_mem.
    cbn [fst snd]. rewrite Hpos, Hprice. auto.
  - intros instrument data Hpos Hprice.
    apply Qcltb_true in Hpos.
    unfold valuation, value_of, unrealized_of, unpriced, valued_at, dict_mem.
    cbn [fst snd]. rewrite Hpos, Hprice. auto.
Qed.

(** Ten shares bought at 5 and priced 18.80 are worth 188 with 138
    unrealized; the ten shares of the instrument without a price are
    skipped with a warning. *)
Example valuation_skips_unpriced :
  simulate_portfolio priced_and_unpriced (QcZ 65) =
  (([ ("unlisted etf", entry_of [lot_b] (QcZ 10));
      (world,
       {| lots := [lot_a]; total_shares := QcZ 10;
          current_price := Some (Q2Qc (1880 # 100));
          current_value := Some (QcZ 188);
          total_cost := Some (QcZ 50);
          unrealized_pl := Some (QcZ 138) |}) ],
    QcZ 188, QcZ 203, QcZ 138, QcZ 65),
   [WarnNoFixedPrice "unlisted etf"]).
Proof.
  apply (by_decision Valuation_eq_dec). vm_compute. reflexivity.
Qed.

(** ** C9: what the valuation and the solver leave alone *)

Lemma valuation_same_position kv : same_position kv (valuation kv).
Proof.
  unfold same_position, valuation.
  destruct (valued_at kv); cbn [fst snd annotate lots total_shares]; auto.
Qed.

Lemma valuation_frame h : Forall2 same_position h (map valuation h).
Proof.
  induction h as [|kv h IH]; simpl; constructor; auto.
  apply valuation_same_position.
Qed.

(** C9.  After the valuation and then the solver, whatever the target, the
    holdings are the entries the valuation returned, in their order and
    under their keys, each with the lot queue (so every lot's date, shares
    and cost per share) and the [total_shares] it had before: only the four
    derived fields can differ, and an entry the valuation does not value is
    the same entry.  The realized P&L is the one passed in.  The solver
    changes nothing: the state after it is the state the valuation left. *)
Theorem valuation_and_solver_frame (h : Holdings) (pl desired_profit : Qc) :
  Forall2 same_position h
    (fst (fst (valuation_then_solver h pl desired_profit))) /\
  snd (fst (valuation_then_solver h pl desired_profit)) = pl /\
  fst (fst (valuation_then_solver h pl desired_profit)) = map valuation h /\
  fst (fst (valuation_then_solver h pl desired_profit))
  = fst (fst (fst (fst (fst (simulate_portfolio h pl))))) /\
  (forall kv, valued_at kv = None -> valuation kv = kv).
Proof.
  assert (fst (fst (valuation_then_solver h pl desired_profit)) = map valuation h
          /\ snd (fst (valuation_then_solver h pl desired_profit)) = pl) as [Hh Hpl].
  { unfold valuation_then_solver.
    rewrite simulate_portfolio_spec.
    destruct (calculate_shares_to_sell (map valuation h) desired_profit).
    split; reflexivity. }
  rewrite Hh, Hpl, simulate_portfolio_spec.
  repeat split; auto.
  - apply valuation_frame.
  - intros kv H. unfold valuation. now rewrite H.
Qed.

(** ** The plan of a feasible target, in general *)








(** ** Lots stay positive *)

(** Every lot holds a positive number of shares in every ledger the fold
    builds from rows that acquire positive numbers of shares. *)

Lemma fifo_disposal_positive price queue :
  forall s total pl,
    Forall positive_lot queue ->
    let '(queue', _, _, _) := fifo_disposal price queue s total pl in
    Forall positive_lot queue'.
Proof.
  induction queue as [|lot rest IH]; intros s total pl Hq; simpl.
  - constructor.
  - inversion Hq as [|? ? Hlot Hrest]; subst.
    destruct (Qcltb 0 s); [|assumption].
    destruct (Qcleb (shares lot) s) eqn:E.
    + now apply IH.
    + apply Qcleb_false in E. constructor; [|assumption].
      unfold positive_lot in *. cbn [with_lot_shares shares]. qc_lra.
Qed.

Section Positive.
Variable py_float : string -> option Qc.

Lemma positive_ledger_get h key data :
  positive_ledger h -> dict_get h key = Some data ->
  Forall positive_lot (lots data).
Proof.
  intros Hh Hget. apply dict_get_In in Hget.
  unfold positive_ledger in Hh. rewrite Forall_forall in Hh.
  apply (Hh _ Hget).
Qed.

Lemma process_row_positive st row :
  buys_positive py_float row ->
  positive_ledger (holdings st) ->
  positive_ledger (holdings (process_row py_float st row)).
Proof.
  intros Hrow Hst. unfold process_row.
  destruct (str_in (transaction_type row) _); [assumption|].
  destruct (String.eqb (transaction_type row) "Distribution").
  { destruct (py_float (amount_str row)); assumption. }
  destruct (py_float (amount_str row)) as [amount|]; [|assumption].
  destruct (py_float (shares_str row)) as [s|] eqn:Hs; [|assumption].
  destruct (str_in (transaction_type row) _) eqn:Hbuy.
  - unfold buy. cbn [holdings].
    apply Forall_dict_set; [|assumption]. intros k0.
    cbn [snd with_lots lots]. apply Forall_app. split.
    + destruct (dict_get (holdings st) (instrument_canonical row)) eqn:E.
      * eapply positive_ledger_get; eauto.
      * constructor.
    + repeat constructor. apply (Hrow s); auto.
  - destruct (str_in (transaction_type row) ["Sell"; "Swap out"]);
      [|assumption].
    unfold sell.
    destruct (dict_get (holdings st) (instrument_canonical row))
      as [data|] eqn:E; [|assumption].
    pose proof (fifo_disposal_positive
                  (if Qcneqb s 0 then amount / s else 0)
                  (lots data) s (total_shares data) (realized_pl st)
                  (positive_ledger_get _ _ _ Hst E)) as L.
    destruct (fifo_disposal _ _ _ _ _) as [[[queue' s'] total'] pl'].
    assert (positive_ledger
              (dict_set (holdings st) (instrument_canonical row)
                 (with_lots data queue' total')))
      by (apply Forall_dict_set; auto).
    destruct (Qcltb 0 s'); assumption.
Qed.

Lemma lots_stay_positive rows :
  Forall (buys_positive py_float) rows ->
  positive_ledger (holdings (process_transactions py_float rows)).
Proof.
  unfold process_transactions.
  assert (positive_ledger (holdings initial)) as H0 by constructor.
  revert H0. generalize initial.
  induction rows as [|row rows IH]; intros st Hst Hrows; simpl.
  - assumption.
  - inversion Hrows; subst.
    apply IH; [apply process_row_positive|]; assumption.
Qed.
End Positive.

Lemma lots_stay_positive_two_buys :
  Forall (buys_positive decimal) [buy_10_for_50; buy_10_for_70] /\
  positive_ledger
    (holdings (process_transactions decimal [buy_10_for_50; buy_10_for_70])).
Proof.
  assert (Forall (buys_positive decimal) [buy_10_for_50; buy_10_for_70]) as H.
  { repeat constructor; intros s _ Hs; vm_compute in Hs;
      injection Hs as <-; reflexivity. }
  split; [exact H|].
  apply (lots_stay_positive decimal [buy_10_for_50; buy_10_for_70] H).
Defined.

(* ================================================================= *)
(** * Further properties of the ledger *)

(** ** Lookup after an update *)

Lemma dict_get_set_same {V : Type} (d : list (string * V)) k v :
  dict_get (dict_set d k v) k = Some v.
Proof.
  induction d as [|[k' v'] d IH]; simpl.
  - now rewrite String.eqb_refl.
  - destruct (String.eqb k k') eqn:E; simpl; rewrite E; auto.
Qed.

Lemma dict_get_set_other {V : Type} (d : list (string * V)) k k' v :
  k' <> k -> dict_get (dict_set d k v) k' = dict_get d k'.
Proof.
  intro N. induction d as [|[k0 v0] d IH]; simpl.
  - destruct (String.eqb_spec k' k); congruence.
  - destruct (String.eqb_spec k k0); simpl.
    + subst k0. destruct (String.eqb_spec k' k); congruence.
    + destruct (String.eqb_spec k' k0); auto.
Qed.

(** ** The accounting of a disposal *)






(** ** Rows that acquire *)

Section Acquire.
Variable py_float : string -> option Qc.


Lemma buy_cost_nonneg amount s :
0 <= (if Qcneqb s 0 then Qcabs.Qcabs (amount / s) else 0).
Proof.
destruct (Qcneqb s 0); [apply Qcabs.Qcabs_nonneg | apply Qcle_refl].
Qed.
End Acquire.



(** ** Rows that realize nothing *)

Lemma realizes_false row :
  realizes row = false ->
  String.eqb (transaction_type row) "Distribution" = false /\
  str_in (transaction_type row) ["Sell"; "Swap out"] = false.
Proof.
  unfold realizes, str_in. cbn [existsb].
  destruct (String.eqb (transaction_type row) "Sell");
    destruct (String.eqb (transaction_type row) "Swap out");
    destruct (String.eqb (transaction_type row) "Distribution");
    cbn; intuition discriminate.
Qed.

Lemma process_row_keeps_realized py_float st row :
  realizes row = false ->
  realized_pl (process_row py_float st row) = realized_pl st.
Proof.
  intro H. apply realizes_false in H as [Hd Hs].
  unfold process_row. rewrite Hd, Hs.
  destruct (str_in (transaction_type row) ["Deposit"; "Withdrawal"]);
    [reflexivity|].
  destruct (py_float (amount_str row)); [|reflexivity].
  destruct (py_float (shares_str row)); [|reflexivity].
  destruct (str_in (transaction_type row) ["Buy"; "Savings Plan"; "Swap in"]);
    reflexivity.
Qed.

(** X5.  Only disposals and distributions realize: a history without any
    [Sell], [Swap out] or [Distribution] row (purchases, savings plans,
    swaps in, deposits, withdrawals, rows of unknown type or with unreadable
    numbers) ends with a realized P&L of exactly 0. *)
Theorem realized_is_zero_without_disposals
    (py_float : string -> option Qc) (transactions : list Row) :
  Forall (fun row => realizes row = false) transactions ->
  realized_pl (process_transactions py_float transactions) = 0.
Proof.
  unfold process_transactions.
  assert (realized_pl initial = 0) as H0 by reflexivity.
  revert H0. generalize initial.
  induction transactions as [|row rows IH]; intros st Hst Hrows; simpl.
  - exact Hst.
  - inversion Hrows as [|? ? Hrow Hrest]; subst.
    apply IH; [|assumption].
    now rewrite process_row_keeps_realized.
Qed.

Lemma realized_is_zero_after_two_buys :
  Forall (fun row => realizes row = false) [buy_10_for_50; buy_10_for_70] /\
  realized_pl (process_transactions decimal [buy_10_for_50; buy_10_for_70]) = 0.
Proof.
  assert (Forall (fun row => realizes row = false)
            [buy_10_for_50; buy_10_for_70]) as H
    by (repeat constructor).
  split; [exact H|].
  exact (realized_is_zero_without_disposals decimal _ H).
Defined.

(** ** The shape of a step *)

(** What a row can do to the holdings: nothing, append a lot under the
    row's instrument, or run the disposal loop on that instrument's entry. *)
Lemma process_row_holdings_shape py_float st row :
  holdings (process_row py_float st row) = holdings st \/
  (exists amount s,
      holdings (process_row py_float st row) =
      holdings (buy st (instrument_canonical row) (date_str row) amount s)) \/
  (exists amount s data,
      dict_get (holdings st) (instrument_canonical row) = Some data /\
      holdings (process_row py_float st row) =
      dict_set (holdings st) (instrument_canonical row)
        (with_lots data
           (fst (fst (fst (fifo_disposal (sale_price amount s) (lots data) s
                             (total_shares data) (realized_pl st)))))
           (snd (fst (fifo_disposal (sale_price amount s) (lots data) s
                        (total_shares data) (realized_pl st)))))).
Proof.
  unfold process_row.
  destruct (str_in (transaction_type row) ["Deposit"; "Withdrawal"]);
    [now left|].
  destruct (String.eqb (transaction_type row) "Distribution").
  { destruct (py_float (amount_str row)); now left. }
  destruct (py_float (amount_str row)) as [amount|]; [|now left].
  destruct (py_float (shares_str row)) as [s|]; [|now left].
  destruct (str_in (transaction_type row) ["Buy"; "Savings Plan"; "Swap in"]).
  { right. left. now exists amount, s. }
  destruct (str_in (transaction_type row) ["Sell"; "Swap out"]); [|now left].
  unfold sell. fold (sale_price amount s).
  destruct (dict_get (holdings st) (instrument_canonical row)) as [data|] eqn:E;
    [|now left].
  right. right. exists amount, s, data. split; [reflexivity|].
  destruct (fifo_disposal _ _ _ _ _) as [[[queue' s'] total'] pl'].
  destruct (Qcltb 0 s'); reflexivity.
Qed.

(** ** Lots leave at the front and join at the back *)

Lemma with_lot_shares_same lot : with_lot_shares lot (shares lot) = lot.
Proof. now destruct lot. Qed.

Lemma front_reduced_refl q : front_reduced q q.
Proof.
  exists 0%nat. simpl. destruct q as [|lot rest]; [reflexivity|].
  exists (shares lot). split; [now rewrite with_lot_shares_same | now left].
Qed.

Lemma front_reduced_tail lot rest q :
  front_reduced rest q -> front_reduced (lot :: rest) q.
Proof. intros [k H]. now exists (S k). Qed.

Lemma fifo_disposal_front_reduced price queue :
  forall s total pl,
    front_reduced queue
      (fst (fst (fst (fifo_disposal price queue s total pl)))).
Proof.
  induction queue as [|lot rest IH]; intros s total pl.
  - apply front_reduced_refl.
  - cbn [fifo_disposal].
    destruct (Qcltb 0 s) eqn:Hs; [|apply front_reduced_refl].
    destruct (Qcleb (shares lot) s) eqn:Hl.
    + apply front_reduced_tail, IH.
    + apply Qcltb_true in Hs. apply Qcleb_false in Hl.
      exists 0%nat. simpl. exists (shares lot - s).
      split; [reflexivity|]. right. split; qc_lra.
Qed.

(** X6.  Whatever the row, an instrument that has an entry keeps one, and
    its queue changes only at its two ends: lots leave at the front (what is
    left is a suffix of the old queue, each lot with its date and cost; only
    the first of them can hold another number of shares, which is then
    smaller than before and still positive), and at most one lot joins at
    the back.  Lots are never reordered, relabelled, re-priced or raised. *)
Theorem queue_changes_only_at_its_ends
    (py_float : string -> option Qc) (st : Ledger) (row : Row)
    (key : string) (data : HoldingsData) :
  dict_get (holdings st) key = Some data ->
  exists data' kept joined,
    dict_get (holdings (process_row py_float st row)) key = Some data' /\
    lots data' = kept ++ joined /\
    front_reduced (lots data) kept /\
    (List.length joined <= 1)%nat.
Proof.
  intro Hget.
  destruct (process_row_holdings_shape py_float st row)
    as [H|[(amount & s & H)|(amount & s & data0 & Hget0 & H)]]; rewrite H.
  - exists data, (lots data), []. rewrite app_nil_r.
    repeat split; auto using front_reduced_refl.
  - unfold buy. cbn [holdings].
    destruct (String.eqb_spec key (instrument_canonical row)) as [->|N].
    + rewrite dict_get_set_same, Hget.
      eexists _, (lots data), [_]. cbn [with_lots lots].
      repeat split; auto using front_reduced_refl.
    + rewrite dict_get_set_other by assumption.
      exists data, (lots data), []. rewrite app_nil_r.
      repeat split; auto using front_reduced_refl.
  - destruct (String.eqb_spec key (instrument_canonical row)) as [->|N].
    + rewrite dict_get_set_same.
      assert (data0 = data) as -> by congruence.
      eexists _, _, []. cbn [with_lots lots]. rewrite app_nil_r.
      repeat split; auto. apply fifo_disposal_front_reduced.
    + rewrite dict_get_set_other by assumption.
      exists data, (lots data), []. rewrite app_nil_r.
      repeat split; auto using front_reduced_refl.
Qed.

Lemma queue_of_two_lots_after_sale :
  dict_get (holdings two_lots) world
  = Some (entry_of [lot_a; lot_b] (QcZ 20)) /\
  exists data' kept joined,
    dict_get (holdings (process_row decimal two_lots sell_15)) world
    = Some data' /\
    lots data' = kept ++ joined /\
    front_reduced [lot_a; lot_b] kept /\
    (List.length joined <= 1)%nat.
Proof.
  split; [reflexivity|].
  exact (queue_changes_only_at_its_ends decimal two_lots sell_15 world
           (entry_of [lot_a; lot_b] (QcZ 20)) eq_refl).
Defined.

(** ** Rows that leave the portfolio alone *)

(** X7.  The rows that change neither the holdings nor the realized P&L:
    a [Deposit] or [Withdrawal] is passed over before any cell is read (even
    with unreadable numbers, and without a message); a [Distribution] whose
    amount does not read, and any other row one of whose two numbers does
    not read, is dropped with one warning that carries the row; a row of a
    type the ledger does not know is passed over in silence when its numbers
    read; a [Sell] or [Swap out] of an instrument without an entry is dropped
    with one warning and creates no entry. *)
Theorem rows_that_change_nothing
    (py_float : string -> option Qc) (st : Ledger) (row : Row) :
  (str_in (transaction_type row) ["Deposit"; "Withdrawal"] = true ->
   process_row py_float st row = st) /\
  (transaction_type row = "Distribution" ->
   py_float (amount_str row) = None ->
   process_row py_float st row = print st (WarnInvalidDistribution row)) /\
  (str_in (transaction_type row) ["Deposit"; "Withdrawal"; "Distribution"]
   = false ->
   py_float (amount_str row) = None \/ py_float (shares_str row) = None ->
   process_row py_float st row = print st (WarnSkippingInvalid row)) /\
  (str_in (transaction_type row)
     ["Deposit"; "Withdrawal"; "Distribution"; "Buy"; "Savings Plan";
      "Swap in"; "Sell"; "Swap out"] = false ->
   forall amount s, reads_as py_float row amount s ->
   process_row py_float st row = st) /\
  (str_in (transaction_type row) ["Sell"; "Swap out"] = true ->
   forall amount s, reads_as py_float row amount s ->
   dict_get (holdings st) (instrument_canonical row) = None ->
   process_row py_float st row
   = print st (WarnNotInHoldings (instrument_canonical row)) /\
   dict_get (holdings (process_row py_float st row)) (instrument_canonical row)
   = None).
Proof.
  split; [|split; [|split; [|split]]].
  - intro H. unfold process_row. now rewrite H.
  - intros Ht Ha. now rewrite process_row_distribution, Ha.
  - intros Ht Hnum. unfold process_row.
    unfold str_in in *. cbn [existsb] in *.
    destruct (String.eqb (transaction_type row) "Deposit"); [discriminate|].
    destruct (String.eqb (transaction_type row) "Withdrawal"); [discriminate|].
    destruct (String.eqb (transaction_type row) "Distribution");
      [discriminate|].
    cbn [orb].
    destruct Hnum as [-> | Hs]; [reflexivity|].
    rewrite Hs. now destruct (py_float (amount_str row)).
  - intros Ht amount s [Ha Hs]. unfold process_row. rewrite Ha, Hs.
    unfold str_in in *. cbn [existsb] in *.
    destruct (String.eqb (transaction_type row) "Deposit"); [discriminate|].
    destruct (String.eqb (transaction_type row) "Withdrawal"); [discriminate|].
    destruct (String.eqb (transaction_type row) "Distribution");
      [discriminate|].
    destruct (String.eqb (transaction_type row) "Buy"); [discriminate|].
    destruct (String.eqb (transaction_type row) "Savings Plan");
      [discriminate|].
    destruct (String.eqb (transaction_type row) "Swap in"); [discriminate|].
    destruct (String.eqb (transaction_type row) "Sell"); [discriminate|].
    destruct (String.eqb (transaction_type row) "Swap out"); [discriminate|].
    reflexivity.
  - intros Ht amount s [Ha Hs] Hget.
    rewrite (process_row_sell py_float st row amount s Ht Ha Hs).
    unfold sell. rewrite Hget. split; [reflexivity|exact Hget].
Qed.

(** A deposit with a cell that is no number, and a sale of an instrument
    that was never bought. *)
Example deposit_and_untracked_sale :
  process_row decimal two_lots
    {| Date := None;
       cells := [("Amount", "n/a"); ("Transaction Type", "Deposit")] |}
  = two_lots /\
  process_row decimal initial sell_15
  = {| holdings := []; realized_pl := 0;
       stdout := [WarnNotInHoldings world] |}.
Proof.
  split.
  - reflexivity.
  - apply (by_decision Ledger_eq_dec). vm_compute. reflexivity.
Qed.

(** ** What every ledger satisfies *)

Lemma fifo_disposal_Forall (P : Lot -> Prop) price queue :
  (forall lot x, P lot -> P (with_lot_shares lot x)) ->
  forall s total pl,
    Forall P queue ->
    Forall P (fst (fst (fst (fifo_disposal price queue s total pl)))).
Proof.
  intro HP. induction queue as [|lot rest IH]; intros s total pl Hq.
  - constructor.
  - inversion Hq; subst. cbn [fifo_disposal].
    destruct (Qcltb 0 s); [|assumption].
    destruct (Qcleb (shares lot) s); [now apply IH|].
    cbn [fst]. constructor; auto.
Qed.

Lemma Forall_get {V : Type} (P : string * V -> Prop) d k v :
  Forall P d -> dict_get d k = Some v -> P (k, v).
Proof.
  intros Hd Hget. apply dict_get_In in Hget.
  rewrite Forall_forall in Hd. now apply Hd.
Qed.

(** An invariant of the entries that an appended lot and a disposal keep
    is an invariant of the fold. *)
Lemma entries_invariant (P : HoldingsData -> Prop) py_float :
  P empty_entry ->
  (forall data d s amount,
      P data ->
      P (with_lots data
           (lots data
            ++ [mkLot d s (if Qcneqb s 0 then Qcabs.Qcabs (amount / s) else 0)])
           (total_shares data + s))) ->
  (forall data price s pl,
      P data ->
      P (with_lots data
           (fst (fst (fst (fifo_disposal price (lots data) s
                             (total_shares data) pl))))
           (snd (fst (fifo_disposal price (lots data) s
                        (total_shares data) pl))))) ->
  forall rows,
    Forall (fun kv => P (snd kv))
      (holdings (process_transactions py_float rows)).
Proof.
  intros Hempty Hbuy Hsell rows. unfold process_transactions.
  assert (Forall (fun kv => P (snd kv)) (holdings initial)) as H0
    by constructor.
  revert H0. generalize initial.
  induction rows as [|row rows IH]; intros st Hst; simpl; [assumption|].
  apply IH.
  destruct (process_row_holdings_shape py_float st row)
    as [H|[(amount & s & H)|(amount & s & data & Hget & H)]]; rewrite H.
  - assumption.
  - unfold buy. cbn [holdings].
    apply Forall_dict_set; [|assumption]. intro k. cbn [snd].
    apply Hbuy.
    destruct (dict_get (holdings st) (instrument_canonical row)) eqn:E;
      [|assumption].
    apply (Forall_get _ _ _ _ Hst E).
  - apply Forall_dict_set; [|assumption]. intro k. cbn [snd].
    apply Hsell. apply (Forall_get _ _ _ _ Hst Hget).
Qed.

Lemma ledger_costs_nonneg py_float rows :
  costs_nonneg (holdings (process_transactions py_float rows)).
Proof.
  apply (entries_invariant
           (fun data => Forall (fun lot => 0 <= cost_per_share lot) (lots data))).
  - constructor.
  - intros data d s amount H. cbn [with_lots lots].
    apply Forall_app. split; [assumption|].
    repeat constructor. cbn [cost_per_share]. apply buy_cost_nonneg.
  - intros data price s pl H. cbn [with_lots lots].
    now apply fifo_disposal_Forall.
Qed.

Lemma ledger_unvalued py_float rows :
  Forall (fun kv => unvalued (snd kv))
    (holdings (process_transactions py_float rows)).
Proof.
  apply (entries_invariant unvalued).
  - repeat split.
  - intros data d s amount H. exact H.
  - intros data price s pl H. exact H.
Qed.

(** X8.  In every ledger the fold builds, from any rows and any reader of
    numbers, no lot has a negative cost per share (a purchase records the
    absolute value of [amount / shares], a disposal leaves costs alone), and
    no entry carries any of the four fields of the valuation: the ledger
    writes lots and totals only. *)
Theorem ledger_costs_nonneg_and_unvalued
    (py_float : string -> option Qc) (transactions : list Row) :
  costs_nonneg (holdings (process_transactions py_float transactions)) /\
  Forall (fun kv => unvalued (snd kv))
    (holdings (process_transactions py_float transactions)).
Proof.
  split; [apply ledger_costs_nonneg | apply ledger_unvalued].
Qed.

(** ** The keys of the holdings *)

Lemma dict_mem_keys {V : Type} (d : list (string * V)) k :
  dict_mem d k = true <-> In k (keys d).
Proof.
  unfold dict_mem, keys. induction d as [|[k' v] d IH]; simpl.
  - split; [discriminate | contradiction].
  - destruct (String.eqb_spec k k') as [->|N].
    + split; auto.
    + rewrite IH. split; [auto | intros [E|H]; congruence].
Qed.

Lemma keys_dict_set {V : Type} (d : list (string * V)) k v :
  keys (dict_set d k v) = if dict_mem d k then keys d else keys d ++ [k].
Proof.
  unfold dict_mem, keys. induction d as [|[k' v'] d IH]; simpl.
  - reflexivity.
  - destruct (String.eqb k k') eqn:E; simpl; [reflexivity|].
    rewrite IH. now destruct (dict_get d k).
Qed.

Lemma NoDup_snoc (l : list string) k :
  NoDup l -> ~ In k l -> NoDup (l ++ [k]).
Proof.
  intros Hl Hk. induction Hl as [|x l Hx Hl IH]; simpl.
  - repeat constructor. intros [].
  - constructor.
    + rewrite in_app_iff. intros [H|[H|[]]]; [contradiction|].
      subst. apply Hk. now left.
    + apply IH. intro H. apply Hk. now right.
Qed.

(** The keys after a row: those before, and perhaps the row's instrument
    behind them, new, and then the row is an acquisition. *)
Lemma process_row_keys py_float st row :
  keys (holdings (process_row py_float st row)) = keys (holdings st) \/
  (keys (holdings (process_row py_float st row))
   = keys (holdings st) ++ [instrument_canonical row] /\
   ~ In (instrument_canonical row) (keys (holdings st)) /\
   acquires row = true).
Proof.
  unfold process_row, acquires.
  destruct (str_in (transaction_type row) ["Deposit"; "Withdrawal"]);
    [now left|].
  destruct (String.eqb (transaction_type row) "Distribution").
  { destruct (py_float (amount_str row)); now left. }
  destruct (py_float (amount_str row)) as [amount|]; [|now left].
  destruct (py_float (shares_str row)) as [s|]; [|now left].
  destruct (str_in (transaction_type row) ["Buy"; "Savings Plan"; "Swap in"]).
  { unfold buy. cbn [holdings]. rewrite keys_dict_set.
    destruct (dict_mem (holdings st) (instrument_canonical row)) eqn:E;
      [now left|].
    right. repeat split. rewrite <- dict_mem_keys. congruence. }
  destruct (str_in (transaction_type row) ["Sell"; "Swap out"]); [|now left].
  unfold sell.
  destruct (dict_get (holdings st) (instrument_canonical row)) as [data|] eqn:E;
    [|now left].
  destruct (fifo_disposal _ _ _ _ _) as [[[queue' s'] total'] pl'].
  assert (keys (dict_set (holdings st) (instrument_canonical row)
                  (with_lots data queue' total')) = keys (holdings st)) as H.
  { rewrite keys_dict_set. unfold dict_mem. now rewrite E. }
  destruct (Qcltb 0 s'); now left.
Qed.

Lemma fold_keys py_float rows :
  forall st,
    NoDup (keys (holdings st)) ->
    exists new,
      keys (holdings (fold_left (process_row py_float) rows st))
      = keys (holdings st) ++ new /\
      NoDup (keys (holdings st) ++ new) /\
      Forall (fun k => exists row,
                  In row rows /\ acquires row = true /\
                  k = instrument_canonical row) new.
Proof.
  induction rows as [|row rows IH]; intros st Hst; simpl.
  - exists []. rewrite app_nil_r. auto.
  - destruct (process_row_keys py_float st row) as [H|(H & Hnew & Hacq)].
    + destruct (IH (process_row py_float st row)) as (new & Hk & Hnd & Hall);
        [now rewrite H|].
      exists new. rewrite <- H. repeat split; auto.
      eapply Forall_impl; [|exact Hall].
      intros k (r & Hr & Ha & E). exists r. auto.
    + destruct (IH (process_row py_float st row)) as (new & Hk & Hnd & Hall);
        [rewrite H; now apply NoDup_snoc|].
      exists (instrument_canonical row :: new).
      rewrite H, <- app_assoc in Hk, Hnd. cbn [app] in Hk, Hnd.
      repeat split; auto.
      constructor.
      * exists row. auto.
      * eapply Forall_impl; [|exact Hall].
        intros k (r & Hr & Ha & E). exists r. auto.
Qed.

(** X9.  The holdings are a dictionary: no instrument has two entries.  An
    entry is created only by an acquisition, under the canonical name of its
    row's instrument, behind the entries there are; it is never removed or
    moved, so the keys after any prefix of the history are a prefix of the
    keys at its end (an instrument sold out keeps its entry). *)
Theorem entries_are_created_once_and_kept
    (py_float : string -> option Qc) (transactions : list Row) :
  NoDup (keys (holdings (process_transactions py_float transactions))) /\
  (forall k,
      In k (keys (holdings (process_transactions py_float transactions))) ->
      exists row,
        In row transactions /\ acquires row = true /\
        k = instrument_canonical row) /\
  (forall n, exists new,
      keys (holdings (process_transactions py_float transactions))
      = keys (holdings (process_transactions py_float (firstn n transactions)))
        ++ new).
Proof.
  assert (forall rows,
             NoDup (keys (holdings (process_transactions py_float rows))) /\
             Forall (fun k => exists row,
                         In row rows /\ acquires row = true /\
                         k = instrument_canonical row)
               (keys (holdings (process_transactions py_float rows)))) as H.
  { intro rows. unfold process_transactions.
    destruct (fold_keys py_float rows initial) as (new & Hk & Hnd & Hall);
      [constructor|].
    rewrite Hk. cbn [initial holdings keys map app] in *. auto. }
  split; [apply H|]. split.
  - intros k Hin. destruct (H transactions) as [_ Hall].
    rewrite Forall_forall in Hall. now apply Hall.
  - intro n. unfold process_transactions.
    destruct (fold_keys py_float (skipn n transactions)
                (fold_left (process_row py_float) (firstn n transactions)
                   initial)) as (new & Hk & _); [apply H|].
    exists new. rewrite <- Hk, <- fold_left_app, firstn_skipn. reflexivity.
Qed.

(** ** The solver on the holdings of the ledger *)

Lemma solver_loop_skips h :
  forall d bound out,
    Forall (fun kv => solvable (snd kv) = None) h ->
    solver_loop h d bound out = (out, None).
Proof.
  induction h as [|[k data] h IH]; intros d bound out Hh; simpl.
  - reflexivity.
  - inversion Hh as [|? ? H Hrest]; subst. cbn [snd] in H.
    rewrite H. now apply IH.
Qed.

Lemma unvalued_not_solvable data : unvalued data -> solvable data = None.
Proof.
  intros (H & _). unfold solvable. rewrite H.
  now destruct (Qcltb 0 (total_shares data)).
Qed.

(** X10.  The solver plans on the prices the valuation wrote: called on
    the holdings as the ledger returns them, before any valuation, it passes
    over every entry and prints its heading alone, whatever the target. *)
Theorem solver_plans_nothing_before_valuation
    (py_float : string -> option Qc) (transactions : list Row)
    (desired_profit : Qc) :
  calculate_shares_to_sell
    (holdings (process_transactions py_float transactions)) desired_profit
  = ([Calculating desired_profit], None).
Proof.
  unfold calculate_shares_to_sell. apply solver_loop_skips.
  eapply Forall_impl; [|apply (ledger_unvalued py_float transactions)].
  intros kv H. now apply unvalued_not_solvable.
Qed.

(** ** When the solver raises *)

Lemma accumulate_binds price d queue :
  forall b acc, exists lot acc',
    accumulate price d queue (Some b) acc = (Some lot, acc').
Proof.
  induction queue as [|lot rest IH]; intros b acc; simpl.
  - now exists b, acc.
  - destruct (Qcleb d (realized_profit acc)); [now exists lot, acc|].
    apply IH.
Qed.

Lemma plan_sale_prints instrument lot rest price d bound :
  exists lot' m,
    plan_sale instrument (lot :: rest) price d bound = (Some lot', inl m).
Proof.
  unfold plan_sale. cbn [accumulate].
  destruct (Qcleb d (realized_profit acc0)) eqn:E.
  - rewrite E. eexists _, _. reflexivity.
  - destruct (accumulate_binds price d rest lot
                {| shares_to_sell := shares_to_sell acc0 + shares lot;
                   realized_profit :=
                     realized_profit acc0
                     + (shares lot * price - shares lot * cost_per_share lot);
                   total_proceeds := total_proceeds acc0 + shares lot * price;
                   total_cost_basis :=
                     total_cost_basis acc0
                     + shares lot * cost_per_share lot |})
      as (lot' & acc' & ->).
    destruct (Qcleb d (realized_profit acc')); eexists _, _; reflexivity.
Qed.

(** Once [lot] is bound it stays bound, and every entry is planned. *)
Lemma plan_sale_bound instrument queue price d b :
  exists lot' m,
    plan_sale instrument queue price d (Some b) = (Some lot', inl m).
Proof.
  unfold plan_sale.
  destruct (accumulate_binds price d queue b acc0) as (lot' & acc' & ->).
  destruct (Qcleb d (realized_profit acc')); eexists _, _; reflexivity.
Qed.

(** An entry without a lot, with [lot] unbound. *)
Lemma plan_sale_unbound instrument price d :
  plan_sale instrument [] price d None
  = if Qcleb d 0 then (None, inr UnboundLocalError)
    else (None, inl (NotEnough instrument d 0 0)).
Proof.
  unfold plan_sale. cbn [accumulate]. cbn [realized_profit acc0].
  now destruct (Qcleb d 0).
Qed.

Lemma solver_loop_bound h :
  forall d b out,
    exists plans,
      solver_loop h d (Some b) out = (out ++ plans, None) /\
      List.length plans = List.length (filter plannable h).
Proof.
  induction h as [|[k data] h IH]; intros d b out; simpl.
  - exists []. now rewrite app_nil_r.
  - unfold plannable at 1. cbn [snd].
    destruct (solvable data) as [price|]; [|apply IH].
    destruct (plan_sale_bound k (lots data) price d b) as (lot' & m & ->).
    destruct (IH d lot' (out ++ [m])) as (plans & -> & Hlen).
    exists (m :: plans). rewrite <- app_assoc. simpl. auto.
Qed.

(** A positive target raises nothing, [lot] bound or not. *)
Lemma solver_loop_positive h :
  forall d bound out,
    Qcleb d 0 = false ->
    exists plans,
      solver_loop h d bound out = (out ++ plans, None) /\
      List.length plans = List.length (filter plannable h).
Proof.
  induction h as [|[k data] h IH]; intros d bound out Hd; simpl.
  - exists []. now rewrite app_nil_r.
  - unfold plannable at 1. cbn [snd].
    destruct (solvable data) as [price|]; [|now apply IH].
    assert (exists bound' m,
               plan_sale k (lots data) price d bound = (bound', inl m))
      as (bound' & m & ->).
    { destruct bound as [b|].
      - destruct (plan_sale_bound k (lots data) price d b) as (lot' & m & ->).
        now exists (Some lot'), m.
      - destruct (lots data) as [|lot rest].
        + rewrite plan_sale_unbound, Hd. eexists _, _. reflexivity.
        + destruct (plan_sale_prints k lot rest price d None)
            as (lot' & m & ->).
          now exists (Some lot'), m. }
    destruct (IH d bound' (out ++ [m]) Hd) as (plans & -> & Hlen).
    exists (m :: plans). rewrite <- app_assoc. simpl. auto.
Qed.

(** A target of 0 or less, with [lot] unbound. *)
Lemma solver_loop_unbound h :
  forall d out,
    Qcleb d 0 = true ->
    if reads_lot_unbound h d
    then solver_loop h d None out = (out, Some UnboundLocalError)
    else exists plans,
        solver_loop h d None out = (out ++ plans, None) /\
        List.length plans = List.length (filter plannable h).
Proof.
  induction h as [|[k data] h IH]; intros d out Hd.
  - cbn. exists []. now rewrite app_nil_r.
  - unfold reads_lot_unbound. cbn [filter solver_loop].
    destruct (solvable data) as [price|] eqn:Hs.
    + assert (plannable (k, data) = true) as ->
        by (unfold plannable; cbn [snd]; now rewrite Hs).
      cbn [snd]. destruct (lots data) as [|lot rest].
      * rewrite Hd, plan_sale_unbound, Hd. reflexivity.
      * destruct (plan_sale_prints k lot rest price d None)
          as (lot' & m & ->).
        destruct (solver_loop_bound h d lot' (out ++ [m]))
          as (plans & -> & Hlen).
        exists (m :: plans). rewrite <- app_assoc. cbn [List.length app].
        split; [reflexivity | now rewrite Hlen].
    + assert (plannable (k, data) = false) as ->
        by (unfold plannable; cbn [snd]; now rewrite Hs).
      apply (IH d out Hd).
Qed.

Lemma reads_lot_unbound_positive h d :
  Qcleb d 0 = false -> reads_lot_unbound h d = false.
Proof.
  intro Hd. unfold reads_lot_unbound.
  destruct (filter plannable h) as [|kv rest]; [reflexivity|].
  now destruct (lots (snd kv)).
Qed.

Lemma reads_lot_unbound_backed h d :
  Forall (fun kv => plannable kv = true -> lots (snd kv) <> []) h ->
  reads_lot_unbound h d = false.
Proof.
  intro Hh. unfold reads_lot_unbound.
  destruct (filter plannable h) as [|kv rest] eqn:E; [reflexivity|].
  assert (In kv (filter plannable h)) as Hin by (rewrite E; now left).
  apply filter_In in Hin as [Hin Hp].
  rewrite Forall_forall in Hh. specialize (Hh kv Hin Hp).
  now destruct (lots (snd kv)).
Qed.

(** X11.  When the solver raises.  The solver reads its loop variable
    [lot] unbound, and raises, exactly when the target is 0 or less and the
    first entry that passes its guard (shares held and a price) has no lot;
    it has then printed its heading alone.  In every other case it raises
    nothing and prints, after its heading, one plan or report for each entry
    that passes the guard.  So it raises nothing on a portfolio in which
    every entry that holds shares and has a price has a lot.  (The ledger
    can leave shares without a lot when its subtractions round: see
    [rounding_leaves_shares_without_lots].) *)
Theorem solver_raises_only_on_shares_without_lots
    (h : Holdings) (desired_profit : Qc) :
  (if reads_lot_unbound h desired_profit
   then calculate_shares_to_sell h desired_profit
        = ([Calculating desired_profit], Some UnboundLocalError)
   else exists plans,
       calculate_shares_to_sell h desired_profit
       = (Calculating desired_profit :: plans, None) /\
       List.length plans = List.length (filter plannable h)) /\
  (Forall (fun kv => plannable kv = true -> lots (snd kv) <> []) h ->
   reads_lot_unbound h desired_profit = false).
Proof.
  split; [|apply reads_lot_unbound_backed].
  unfold calculate_shares_to_sell.
  destruct (Qcleb desired_profit 0) eqn:Hd.
  - pose proof (solver_loop_unbound h desired_profit
                  [Calculating desired_profit] Hd) as H.
    destruct (reads_lot_unbound h desired_profit); exact H.
  - rewrite (reads_lot_unbound_positive h desired_profit Hd).
    apply (solver_loop_positive h desired_profit None
             [Calculating desired_profit] Hd).
Qed.

(** Where it does raise: five shares, a price, no lot, and a target of 0. *)
Example solver_raises_without_lots :
  calculate_shares_to_sell shares_without_lots 0
  = ([Calculating 0], Some UnboundLocalError).
Proof. apply (by_decision Printed_eq_dec). vm_compute. reflexivity. Qed.

(** * The instrument resolver *)

Lemma lower_ascii_idempotent c : lower_ascii (lower_ascii c) = lower_ascii c.
Proof.
  destruct c as [[] [] [] [] [] [] [] []]; reflexivity.
Qed.

Lemma lower_idempotent s : lower (lower s) = lower s.
Proof.
  induction s as [|c s IH]; simpl; [reflexivity|].
  now rewrite lower_ascii_idempotent, IH.
Qed.

(** Every name the table resolves to resolves to itself and is in lower
    case: checked on the fourteen entries of the table. *)
Lemma canonical_names_are_fixed alias canonical :
  dict_get INSTRUMENT_ALIAS alias = Some canonical ->
  dict_get INSTRUMENT_ALIAS canonical = Some canonical /\
  lower canonical = canonical.
Proof.
  intro H. apply dict_get_In in H.
  vm_compute in H.
  repeat (destruct H as [H|H];
          [injection H as _ <-; split; vm_compute; reflexivity|]).
  contradiction.
Qed.

Lemma lower_ascii_is_ascii c :
  Nat.ltb (nat_of_ascii (lower_ascii c)) 128 = Nat.ltb (nat_of_ascii c) 128.
Proof.
  destruct c as [[] [] [] [] [] [] [] []]; reflexivity.
Qed.

Lemma lower_is_ascii s : is_ascii (lower s) = is_ascii s.
Proof.
  induction s as [|c s IH]; simpl; [reflexivity|].
  now rewrite lower_ascii_is_ascii, IH.
Qed.

(** The names in the table are ASCII. *)
Lemma canonical_names_are_ascii alias canonical :
  dict_get INSTRUMENT_ALIAS alias = Some canonical ->
  is_ascii canonical = true.
Proof.
  intro H. apply dict_get_In in H.
  vm_compute in H.
  repeat (destruct H as [H|H];
          [injection H as _ <-; vm_compute; reflexivity|]).
  contradiction.
Qed.

(** X12.  On names of ASCII characters (where the byte-wise [lower] of the
    model is Python's [str.lower]) the resolver is blind to case and
    idempotent, and its results are ASCII names in lower case: a name with
    an entry in the alias table resolves to a canonical name that resolves
    to itself, any other name to its lower-case form; so the keys under
    which the ledger files such rows are fixed points of the resolver.
    Every alias listed in [ALIAS_MAPPING] resolves to the name it is listed
    under (no alias is claimed by two names). *)
Theorem resolver_is_idempotent_and_blind_to_case (name : string) :
  is_ascii name = true ->
  get_canonical_name (lower name) = get_canonical_name name /\
  get_canonical_name (get_canonical_name name) = get_canonical_name name /\
  lower (get_canonical_name name) = get_canonical_name name /\
  is_ascii (get_canonical_name name) = true /\
  (dict_get INSTRUMENT_ALIAS (lower name) = None ->
   get_canonical_name name = lower name) /\
  Forall (fun entry =>
            Forall (fun alias => get_canonical_name alias = fst entry)
              (snd entry))
    ALIAS_MAPPING.
Proof.
  intro Hascii.
  assert (get_canonical_name (lower name) = get_canonical_name name) as Hcase
    by (unfold get_canonical_name; now rewrite lower_idempotent).
  split; [exact Hcase|]. split; [|split; [|split; [|split]]].
  - unfold get_canonical_name at 2 3.
    destruct (dict_get INSTRUMENT_ALIAS (lower name)) as [c|] eqn:E.
    + destruct (canonical_names_are_fixed _ _ E) as [Hc Hl].
      unfold get_canonical_name. now rewrite Hl, Hc.
    + rewrite Hcase. unfold get_canonical_name. now rewrite E.
  - unfold get_canonical_name.
    destruct (dict_get INSTRUMENT_ALIAS (lower name)) as [c|] eqn:E.
    + apply (canonical_names_are_fixed _ _ E).
    + apply lower_idempotent.
  - unfold get_canonical_name.
    destruct (dict_get INSTRUMENT_ALIAS (lower name)) as [c|] eqn:E.
    + apply (canonical_names_are_ascii _ _ E).
    + now rewrite lower_is_ascii.
  - intro E. unfold get_canonical_name. now rewrite E.
  - repeat constructor.
Qed.

(** An alias written in capitals. *)
Lemma resolver_on_an_alias_in_capitals :
  is_ascii "LYXOR Core MSCI World (DR) UCITS ETF - Acc" = true /\
  get_canonical_name "LYXOR Core MSCI World (DR) UCITS ETF - Acc"
  = "amundi msci world v (acc)" /\
  get_canonical_name
    (get_canonical_name "LYXOR Core MSCI World (DR) UCITS ETF - Acc")
  = get_canonical_name "LYXOR Core MSCI World (DR) UCITS ETF - Acc".
Proof.
  split; [reflexivity|]. split; [reflexivity|].
  exact (proj1 (proj2 (resolver_is_idempotent_and_blind_to_case
                         "LYXOR Core MSCI World (DR) UCITS ETF - Acc"
                         eq_refl))).
Defined.

(** An alias in capitals, and a name the table does not know. *)
Example resolver_on_two_names :
  get_canonical_name "LYXOR Core MSCI World (DR) UCITS ETF - Acc"
  = "amundi msci world v (acc)" /\
  get_canonical_name "Vanguard FTSE All-World" = "vanguard ftse all-world".
Proof. split; reflexivity. Qed.

(** * Every outcome of the solver on an entry *)









(** * The valuation, run again *)










(** * The sequencer *)

(** ** The order of dates *)

Lemma datetime_leb_spec a b :
  datetime_leb a b = true <->
  (year a < year b
   \/ (year a = year b
       /\ (month a < month b \/ (month a = month b /\ day a <= day b))))%nat.
Proof.
  unfold datetime_leb.
  rewrite !orb_true_iff, !andb_true_iff, !orb_true_iff, !andb_true_iff.
  rewrite !PeanoNat.Nat.ltb_lt, !PeanoNat.Nat.eqb_eq, PeanoNat.Nat.leb_le.
  reflexivity.
Qed.

Lemma datetime_leb_total a b :
  datetime_leb a b = false -> datetime_leb b a = true.
Proof.
  intro H. apply datetime_leb_spec.
  destruct (datetime_leb a b) eqn:E; [discriminate|].
  assert (~ (year a < year b
             \/ (year a = year b
                 /\ (month a < month b
                     \/ (month a = month b /\ day a <= day b))))%nat) as N
    by (rewrite <- datetime_leb_spec; congruence).
  lia.
Qed.

Lemma datetime_leb_trans a b c :
  datetime_leb a b = true -> datetime_leb b c = true ->
  datetime_leb a c = true.
Proof. rewrite !datetime_leb_spec. lia. Qed.

Lemma datetime_leb_antisym a b :
  datetime_leb a b = true -> datetime_leb b a = true -> a = b.
Proof.
  rewrite !datetime_leb_spec. intros H1 H2.
  destruct a as [ya ma da], b as [yb mb db]. cbn [year month day] in *.
  assert (ya = yb /\ ma = mb /\ da = db) as (-> & -> & ->) by lia.
  reflexivity.
Qed.

(** ** Insertion *)

Lemma insert_by_date_perm row sorted :
  Permutation (row :: sorted) (insert_by_date row sorted).
Proof.
  induction sorted as [|r rest IH]; simpl; [reflexivity|].
  destruct (datetime_leb (sort_key row) (sort_key r)); [reflexivity|].
  rewrite perm_swap. now constructor.
Qed.

Lemma insert_by_date_sorted row sorted :
  date_sorted sorted -> date_sorted (insert_by_date row sorted).
Proof.
  unfold date_sorted.
  induction 1 as [|r rest Hrest IH Hr]; simpl.
  - repeat constructor.
  - destruct (datetime_leb (sort_key row) (sort_key r)) eqn:E.
    + constructor; [now constructor|].
      constructor; [exact E|].
      eapply Forall_impl; [|exact Hr].
      intros x Hx. eapply datetime_leb_trans; eauto.
    + constructor; [exact IH|].
      apply datetime_leb_total in E.
      eapply Permutation_Forall; [apply insert_by_date_perm|].
      now constructor.
Qed.

Lemma dated_leb d row r :
  dated d row = true -> dated d r = true ->
  datetime_leb (sort_key row) (sort_key r) = true.
Proof.
  unfold dated.
  destruct (datetime_eq_dec (sort_key row) d) as [->|]; [|discriminate].
  destruct (datetime_eq_dec (sort_key r) d) as [->|]; [|discriminate].
  intros _ _. apply datetime_leb_spec. lia.
Qed.

(** A row goes in front of the rows of its date. *)
Lemma insert_by_date_stable d row sorted :
  filter (dated d) (insert_by_date row sorted)
  = filter (dated d) (row :: sorted).
Proof.
  induction sorted as [|r rest IH]; [reflexivity|].
  cbn [insert_by_date].
  destruct (datetime_leb (sort_key row) (sort_key r)) eqn:E; [reflexivity|].
  cbn [filter] in *.
  destruct (dated d r) eqn:Hr; [|exact IH].
  destruct (dated d row) eqn:Hrow.
  - rewrite (dated_leb d row r Hrow Hr) in E. discriminate.
  - now rewrite IH.
Qed.

Lemma sort_by_date_sorted rows : date_sorted (sort_by_date rows).
Proof.
  induction rows as [|row rows IH]; simpl.
  - constructor.
  - now apply insert_by_date_sorted.
Qed.

Lemma sort_by_date_perm rows : Permutation rows (sort_by_date rows).
Proof.
  induction rows as [|row rows IH]; simpl; [constructor|].
  rewrite <- insert_by_date_perm. now constructor.
Qed.

Lemma sort_by_date_stable rows : same_order_by_date rows (sort_by_date rows).
Proof.
  intro d. induction rows as [|row rows IH]; [reflexivity|].
  cbn [sort_by_date fold_right]. rewrite insert_by_date_stable.
  cbn [filter]. fold (sort_by_date rows). now rewrite IH.
Qed.

(** ** The stable ordering is one *)

Lemma dated_own row : dated (sort_key row) row = true.
Proof.
  unfold dated. now destruct (datetime_eq_dec (sort_key row) (sort_key row)).
Qed.

Lemma filter_dated_In d row rows :
  In row (filter (dated d) rows) -> In row rows /\ sort_key row = d.
Proof.
  rewrite filter_In. unfold dated.
  destruct (datetime_eq_dec (sort_key row) d); intuition discriminate.
Qed.

Lemma sorted_same_order_equal l1 :
  forall l2,
    date_sorted l1 -> date_sorted l2 ->
    (forall d, filter (dated d) l1 = filter (dated d) l2) ->
    l1 = l2.
Proof.
  unfold date_sorted.
  induction l1 as [|x t1 IH]; intros l2 H1 H2 Hf.
  - destruct l2 as [|y t2]; [reflexivity|].
    specialize (Hf (sort_key y)). cbn [filter] in Hf.
    rewrite dated_own in Hf. discriminate.
  - destruct l2 as [|y t2].
    { specialize (Hf (sort_key x)). cbn [filter] in Hf.
      rewrite dated_own in Hf. discriminate. }
    inversion H1 as [|? ? Ht1 Hx]; subst.
    inversion H2 as [|? ? Ht2 Hy]; subst.
    assert (sort_key x = sort_key y) as Hk.
    { apply datetime_leb_antisym.
      - pose proof (Hf (sort_key y)) as Hy'. cbn [filter] in Hy'.
        rewrite dated_own in Hy'.
        destruct (dated (sort_key y) x) eqn:E.
        + unfold dated in E.
          destruct (datetime_eq_dec (sort_key x) (sort_key y)) as [->|];
            [|discriminate].
          apply datetime_leb_spec. lia.
        + assert (In y (filter (dated (sort_key y)) t1)) as Hin
              by (rewrite Hy'; now left).
          apply filter_dated_In in Hin as [Hin _].
          rewrite Forall_forall in Hx. now apply Hx.
      - pose proof (Hf (sort_key x)) as Hx'. cbn [filter] in Hx'.
        rewrite dated_own in Hx'.
        destruct (dated (sort_key x) y) eqn:E.
        + unfold dated in E.
          destruct (datetime_eq_dec (sort_key y) (sort_key x)) as [->|];
            [|discriminate].
          apply datetime_leb_spec. lia.
        + assert (In x (filter (dated (sort_key x)) t2)) as Hin
              by (rewrite <- Hx'; now left).
          apply filter_dated_In in Hin as [Hin _].
          rewrite Forall_forall in Hy. now apply Hy. }
    pose proof (Hf (sort_key x)) as Hhead. cbn [filter] in Hhead.
    rewrite dated_own in Hhead. rewrite Hk, dated_own in Hhead.
    injection Hhead as -> Htail.
    f_equal. apply IH; auto.
    intro d. specialize (Hf d). cbn [filter] in Hf.
    destruct (dated d y); [now injection Hf|exact Hf].
Qed.

(** X15.  The sequencer keeps every row, puts the rows in ascending order
    of date with the rows whose date does not read under [datetime.min],
    and keeps rows of one date in the order of the file; its result is the
    only list with these properties.  A row is warned about exactly when it
    is a row of the file whose date does not read. *)
Theorem sequencer_is_the_stable_sort_by_date
    (strptime : string -> option datetime)
    (file : list (list (string * string))) :
  Permutation (map (parse_date_of strptime) file)
    (fst (read_and_parse_transactions strptime file)) /\
  date_sorted (fst (read_and_parse_transactions strptime file)) /\
  same_order_by_date (map (parse_date_of strptime) file)
    (fst (read_and_parse_transactions strptime file)) /\
  (forall rows,
      date_sorted rows ->
      same_order_by_date (map (parse_date_of strptime) file) rows ->
      rows = fst (read_and_parse_transactions strptime file)) /\
  (forall row,
      In (InvalidDateFormat row)
        (snd (read_and_parse_transactions strptime file)) <->
      In row file /\ Date (parse_date_of strptime row) = None).
Proof.
  cbn [read_and_parse_transactions fst snd].
  split; [apply sort_by_date_perm|].
  split; [apply sort_by_date_sorted|].
  split; [apply sort_by_date_stable|]. split.
  - intros rows Hs Ho. apply sorted_same_order_equal;
      [assumption | apply sort_by_date_sorted |].
    intro d. rewrite Ho. symmetry. apply sort_by_date_stable.
  - intro row. rewrite in_map_iff. split.
    + intros (r & [= ->] & Hin). apply filter_In in Hin as [Hin Hd].
      split; [exact Hin|]. now destruct (Date (parse_date_of strptime row)).
    + intros [Hin Hd]. exists row. split; [reflexivity|].
      apply filter_In. split; [exact Hin|]. now rewrite Hd.
Qed.

(** A sale dated March, a purchase dated January and a deposit dated
    [0000-00-00]: the deposit comes first, then January, then March. *)
Example sequencer_on_three_rows :
  map (fun row => (Date row, row_get row "Transaction Type"))
    (fst (read_and_parse_transactions strptime_2024 file_of_three))
  = [ (None, "Deposit");
      (Some (mkDate 2024 1 2), "Buy");
      (Some (mkDate 2024 3 1), "Sell") ] /\
  snd (read_and_parse_transactions strptime_2024 file_of_three)
  = [InvalidDateFormat
       [("Date", "0000-00-00"); ("Transaction Type", "Deposit")]].
Proof. split; reflexivity. Qed.

(** * The extractor *)

Section ExtractorProofs.
Variable strptime : string -> option datetime.

Local Abbreviation step := (Extract.step strptime).
Local Abbreviation run := (Extract.run strptime).
Local Abbreviation outer := (Extract.outer strptime).
Local Abbreviation is_date := (Extract.is_date strptime).

Lemma run_app st l1 l2 : run st (l1 ++ l2) = run (run st l1) l2.
Proof. unfold Extract.run. apply fold_left_app. Qed.

(** ** A rejected transaction *)

(** Outside a transaction, what was last begun is not read again. *)
Lemma same_outside_step st st' raw :
same_outside st st' ->
same_outside (step st raw) (step st' raw) \/ step st raw = step st' raw.
Proof.
intros (Ht & Hd & Hm & Hm'). unfold Extract.step. rewrite Hm, Hm'.
unfold Extract.outer.
destruct (String.eqb (strip raw) EmptyString).
{ left. repeat split; assumption. }
destruct (is_date (strip raw)).
{ left. repeat split; assumption. }
destruct (str_in (strip raw) Extract.transaction_types).
{ right. now rewrite Ht, Hd. }
left. repeat split; assumption.
Qed.

Lemma same_outside_run lines :
forall st st',
  same_outside st st' ->
  Extract.transactions (run st lines) = Extract.transactions (run st' lines).
Proof.
induction lines as [|raw lines IH]; intros st st' H.
- apply H.
- cbn [Extract.run fold_left].
  destruct (same_outside_step st st' raw H) as [H'|H'].
  + now apply IH.
  + unfold Extract.run in *. now rewrite H'.
Qed.

(** A heading is read by the outer loop wherever the control is. *)
Lemma step_heading st raw :
strptime "Rejected" = None ->
heading strptime raw ->
step st raw = outer st (strip raw).
Proof.
intros Hrej H. unfold heading in H. unfold Extract.step.
destruct (Extract.mode st).
- reflexivity.
- destruct (String.eqb_spec (strip raw) "Rejected") as [E|_].
  + rewrite E in H. unfold Extract.is_date in H. rewrite Hrej in H.
    discriminate H.
  + unfold Extract.details. now rewrite H.
- now rewrite H.
- unfold Extract.details. now rewrite H.
Qed.

Lemma step_plain_skipped st raw :
plain strptime raw ->
Extract.mode st = Extract.SkipRejected ->
step st raw = st.
Proof.
intros [Hd Ht] Hm. unfold Extract.step. now rewrite Hm, Hd, Ht.
Qed.

Lemma run_plain_skipped body :
forall st,
  Forall (plain strptime) body ->
  Extract.mode st = Extract.SkipRejected ->
  run st body = st.
Proof.
induction body as [|raw body IH]; intros st Hb Hm; [reflexivity|].
inversion Hb; subst. cbn [Extract.run fold_left].
rewrite step_plain_skipped by assumption. now apply IH.
Qed.

(** X17.  A rejected transaction leaves no trace.  A line naming a type,
  followed by the line [Rejected] and by any lines up to the next date or
  type (or the end), can be taken out of the statement together with those
  lines: the records extracted are the same, whatever stands before and
  behind.  (The reader of dates reads neither [Rejected] nor the name of
  the type as a date.) *)
Theorem rejected_transaction_leaves_no_trace
  (before : list string) (type rejected : string) (body after : list string) :
strptime "Rejected" = None ->
str_in (strip type) Extract.transaction_types = true ->
is_date (strip type) = false ->
strip rejected = "Rejected" ->
Forall (plain strptime) body ->
match after with [] => True | raw :: _ => heading strptime raw end ->
Extract.process_transactions strptime
  (before ++ type :: rejected :: body ++ after)
= Extract.process_transactions strptime (before ++ after).
Proof.
intros Hrej Htype Hnodate Hr Hbody Hafter.
unfold Extract.process_transactions.
rewrite !run_app. set (st := run Extract.initial before).
change (type :: rejected :: body ++ after)
  with ([type; rejected] ++ body ++ after).
rewrite !run_app.
assert (run st [type; rejected]
        = {| Extract.transactions := Extract.transactions st;
             Extract.current_date := Extract.current_date st;
             Extract.current_transaction :=
               Extract.fresh (Extract.current_date st) (strip type);
             Extract.transaction_type := strip type;
             Extract.mode := Extract.SkipRejected |}) as Hst.
{ cbn [Extract.run fold_left].
  rewrite (step_heading st type Hrej)
    by (unfold heading; rewrite Htype; apply orb_true_r).
  unfold Extract.outer. rewrite Hnodate, Htype.
  destruct (String.eqb_spec (strip type) EmptyString) as [E|_].
  { rewrite E in Htype. discriminate Htype. }
  unfold Extract.step. cbn [Extract.mode]. now rewrite Hr. }
rewrite Hst.
set (st' := {| Extract.transactions := Extract.transactions st;
               Extract.current_date := Extract.current_date st;
               Extract.current_transaction :=
                 Extract.fresh (Extract.current_date st) (strip type);
               Extract.transaction_type := strip type;
               Extract.mode := Extract.SkipRejected |}).
assert (Extract.mode st' = Extract.SkipRejected) as Hm by reflexivity.
assert (Extract.transactions st' = Extract.transactions st) as Ht
  by reflexivity.
assert (Extract.current_date st' = Extract.current_date st) as Hd
  by reflexivity.
clearbody st'.
rewrite (run_plain_skipped body st' Hbody Hm).
destruct after as [|raw after]; [exact Ht|].
cbn [Extract.run fold_left].
rewrite (step_heading st' raw Hrej Hafter), (step_heading st raw Hrej Hafter).
unfold Extract.outer.
destruct (String.eqb (strip raw) EmptyString).
{ apply same_outside_run. repeat split; assumption. }
destruct (is_date (strip raw)).
{ apply same_outside_run. repeat split; assumption. }
destruct (str_in (strip raw) Extract.transaction_types).
{ now rewrite Hd, Ht. }
apply same_outside_run. repeat split; assumption.
Qed.
End ExtractorProofs.

(** ** The records are well formed *)

Lemma keys_dict_set_In {V : Type} (d : list (string * V)) k v k' :
  In k' (keys (dict_set d k v)) -> k' = k \/ In k' (keys d).
Proof.
  rewrite keys_dict_set. destruct (dict_mem d k); [now right|].
  rewrite in_app_iff. intros [H|[H|[]]]; auto.
Qed.

Section RecordsOk.
Variable strptime : string -> option datetime.

Lemma fresh_partial_ok st line :
str_in line Extract.transaction_types = true ->
partial_ok
  {| Extract.transactions := Extract.transactions st;
     Extract.current_date := Extract.current_date st;
     Extract.current_transaction :=
       Extract.fresh (Extract.current_date st) line;
     Extract.transaction_type := line;
     Extract.mode := Extract.AfterType |}.
Proof.
intro H. unfold partial_ok. cbn [Extract.current_transaction
  Extract.current_date Extract.transaction_type Extract.fresh].
repeat split; auto.
intros k [<-|[<-|[]]]; unfold columns; simpl; auto.
Qed.

Lemma outer_ok st line :
Forall record_ok (Extract.transactions st) ->
written_date (Extract.current_date st) ->
extractor_ok (Extract.outer strptime st line).
Proof.
intros Ht Hd. unfold Extract.outer.
destruct (String.eqb line EmptyString).
{ split; [|split]; auto. cbn. intros [M|M]; discriminate M. }
destruct (Extract.is_date strptime line) eqn:E.
{ split; [|split]; auto.
  - cbn [Extract.current_date]. right. unfold Extract.parse_date.
    unfold Extract.is_date in E.
    destruct (strptime line) as [d|]; [now exists d | discriminate].
  - cbn. intros [M|M]; discriminate M. }
destruct (str_in line Extract.transaction_types) eqn:T.
{ split; [|split]; auto. intros _. now apply fresh_partial_ok. }
split; [|split]; auto. cbn. intros [M|M]; discriminate M.
Qed.

Lemma details_ok st line :
extractor_ok st -> partial_ok st ->
extractor_ok (Extract.details strptime st line).
Proof.
intros (Ht & Hd & _) Hp. unfold Extract.details.
destruct (Extract.is_date strptime line
          || str_in line Extract.transaction_types);
  [now apply outer_ok|].
destruct Hp as (Pd & Pt & Ptype & Pa & Pk & Pcash & Pother).
destruct (Extract.endswith line "Shr.").
{ split; [|split]; auto. intros _. unfold partial_ok.
  cbn [Extract.current_transaction Extract.current_date
       Extract.transaction_type].
  rewrite !dict_get_set_other by discriminate.
  refine (conj Pd (conj Pt (conj Ptype (conj Pa (conj _ (conj Pcash Pother)))))).
  intros k Hk. apply keys_dict_set_In in Hk as [->|Hk]; auto.
  unfold columns. simpl. auto 10. }
destruct (Extract.startswith line "€").
{ split; [|split]; auto.
  - cbn [Extract.transactions]. apply Forall_app. split; [exact Ht|].
    repeat constructor.
    exists (Extract.current_date st), (Extract.transaction_type st),
      (strip (Extract.drop_first line)).
    rewrite dict_get_set_same, !dict_get_set_other by discriminate.
    refine (conj Pd (conj _ (conj Pt (conj Ptype (conj eq_refl
              (conj _ (conj Pcash Pother))))))); [exact Hd|].
    intros k Hk. apply keys_dict_set_In in Hk as [->|Hk]; auto.
    unfold columns. simpl. auto 10.
  - intros _.
    pose proof (fresh_partial_ok st (Extract.transaction_type st) Ptype)
      as F.
    exact F. }
destruct (str_in (Extract.transaction_type st) cash_types) eqn:C.
- change (str_in (Extract.transaction_type st)
            ["Deposit"; "Withdrawal"; "Distribution"]) with
    (str_in (Extract.transaction_type st) cash_types). rewrite C.
  split; [|split]; auto. intros _. unfold partial_ok.
  cbn [Extract.current_transaction Extract.current_date
       Extract.transaction_type].
  rewrite !dict_get_set_other by discriminate.
  refine (conj Pd (conj Pt (conj Ptype (conj Pa (conj _ (conj _ _)))))).
  + intros k Hk. apply keys_dict_set_In in Hk as [->|Hk]; auto.
    unfold columns. simpl. auto 10.
  + intros _. rewrite ?dict_get_set_other by discriminate.
    exact (Pcash eq_refl).
  + intro H. rewrite C in H. discriminate H.
- change (str_in (Extract.transaction_type st)
            ["Deposit"; "Withdrawal"; "Distribution"]) with
    (str_in (Extract.transaction_type st) cash_types). rewrite C.
  split; [|split]; auto. intros _. unfold partial_ok.
  cbn [Extract.current_transaction Extract.current_date
       Extract.transaction_type].
  rewrite !dict_get_set_other by discriminate.
  refine (conj Pd (conj Pt (conj Ptype (conj Pa (conj _ (conj _ _)))))).
  + intros k Hk. apply keys_dict_set_In in Hk as [->|Hk]; auto.
    unfold columns. simpl. auto 10.
  + intro H. rewrite C in H. discriminate H.
  + intros _. rewrite ?dict_get_set_other by discriminate.
    exact (Pother eq_refl).
Qed.

Lemma step_ok st raw :
extractor_ok st -> extractor_ok (Extract.step strptime st raw).
Proof.
intros H. pose proof H as (Ht & Hd & Hp). unfold Extract.step.
destruct (Extract.mode st) eqn:M.
- now apply outer_ok.
- destruct (String.eqb (strip raw) "Rejected").
  + split; [exact Ht|split; [exact Hd|]].
    cbn [Extract.mode]. intros [E|E]; discriminate E.
  + apply details_ok; auto.
- destruct (Extract.is_date strptime (strip raw)
            || str_in (strip raw) Extract.transaction_types);
    [now apply outer_ok | exact H].
- apply details_ok; auto.
Qed.

Lemma run_ok lines :
forall st, extractor_ok st -> extractor_ok (Extract.run strptime st lines).
Proof.
induction lines as [|raw lines IH]; intros st H; [exact H|].
apply IH, step_ok, H.
Qed.
End RecordsOk.

(** X18.  Every record the extractor emits, from any lines and any reader
    of dates, has a date (the initial [0000-00-00] or a date read and
    written as [YYYY-MM-DD]), one of the eight types and an amount; its
    columns are among the six that the ledger reads; a deposit, withdrawal
    or distribution has no instrument name and any other record no
    description.  (Shares may be missing: the ledger then reads 0.0.) *)
Theorem extracted_records_are_well_formed
    (strptime : string -> option datetime) (lines : list string) :
  Forall record_ok (Extract.process_transactions strptime lines).
Proof.
  unfold Extract.process_transactions.
  apply (run_ok strptime lines Extract.initial).
  split; [|split].
  - constructor.
  - now left.
  - cbn. intros [E|E]; discriminate E.
Qed.

(** ** The ledger and the order of the file *)

(** X16.  What the ledger computes depends on the file only through the
    order of its rows within each date: two files whose rows, read, stand in
    the same order under every date are sequenced into the same list, and so
    give the same holdings, the same realized P&L and the same output,
    however the dates are interleaved in the files. *)
Theorem ledger_depends_on_order_within_dates
    (strptime : string -> option datetime) (py_float : string -> option Qc)
    (file1 file2 : list (list (string * string))) :
  same_order_by_date (map (parse_date_of strptime) file1)
    (map (parse_date_of strptime) file2) ->
  fst (read_and_parse_transactions strptime file1)
  = fst (read_and_parse_transactions strptime file2) /\
  process_transactions py_float
    (fst (read_and_parse_transactions strptime file1))
  = process_transactions py_float
      (fst (read_and_parse_transactions strptime file2)).
Proof.
  intro H.
  assert (fst (read_and_parse_transactions strptime file1)
          = fst (read_and_parse_transactions strptime file2)) as E.
  { cbn [read_and_parse_transactions fst].
    apply sorted_same_order_equal; try apply sort_by_date_sorted.
    intro d.
    rewrite (sort_by_date_stable (map (parse_date_of strptime) file1) d).
    rewrite (sort_by_date_stable (map (parse_date_of strptime) file2) d).
    symmetry. apply H. }
  split; [exact E | now rewrite E].
Qed.

Lemma ledger_of_three_rows_reordered :
  same_order_by_date (map (parse_date_of strptime_2024) file_of_three)
    (map (parse_date_of strptime_2024) file_of_three_reordered) /\
  process_transactions decimal
    (fst (read_and_parse_transactions strptime_2024 file_of_three))
  = process_transactions decimal
      (fst (read_and_parse_transactions strptime_2024 file_of_three_reordered)).
Proof.
  assert (same_order_by_date
            (map (parse_date_of strptime_2024) file_of_three)
            (map (parse_date_of strptime_2024) file_of_three_reordered)) as H.
  { intro d. cbn [map filter file_of_three file_of_three_reordered].
    unfold dated.
    repeat match goal with
           | |- context [datetime_eq_dec ?k d] =>
               destruct (datetime_eq_dec k d)
           end;
      try reflexivity; subst; discriminate. }
  split; [exact H|].
  exact (proj2 (ledger_depends_on_order_within_dates strptime_2024 decimal
                  file_of_three file_of_three_reordered H)).
Defined.

(** ** A transaction of an instrument *)

(** X19.  Wherever the control is and whatever was read before, four
    lines that name a type other than a deposit, withdrawal or distribution,
    then an instrument, then shares (a line ending in [Shr.]) and then an
    amount (a line starting with the euro sign) add exactly one record: the
    date in force, the type, the instrument, the shares without their last
    five characters and the amount without its first, each stripped, in
    this order of columns.  (The reader of dates reads none of the four
    lines, nor [Rejected], as a date.) *)
Theorem block_of_an_instrument_gives_one_record
    (strptime : string -> option datetime) (st : Extract.State)
    (type name shares amount : string) :
  strptime "Rejected" = None ->
  (str_in (strip type) Extract.transaction_types = true /\
   Extract.is_date strptime (strip type) = false /\
   str_in (strip type) cash_types = false) ->
  (plain strptime name /\ strip name <> "Rejected" /\
   Extract.endswith (strip name) "Shr." = false /\
   Extract.startswith (strip name) "€" = false) ->
  (plain strptime shares /\ Extract.endswith (strip shares) "Shr." = true) ->
  (plain strptime amount /\ Extract.endswith (strip amount) "Shr." = false /\
   Extract.startswith (strip amount) "€" = true) ->
  Extract.transactions (Extract.run strptime st [type; name; shares; amount])
  = Extract.transactions st
    ++ [[ ("Date", Extract.current_date st);
          ("Transaction Type", strip type);
          ("Instrument Name", strip name);
          ("Shares", strip (Extract.drop_last_5 (strip shares)));
          ("Amount", strip (Extract.drop_first (strip amount))) ]].
Proof.
  intros Hrej (Ht & Htd & Htc) ((Hnd & Hnt) & Hnr & Hne & Hns)
         ((Hsd & Hst) & Hse) ((Had & Hat) & Hae & Has).
  cbn [Extract.run fold_left].
  rewrite (step_heading strptime st type Hrej)
    by (unfold heading; rewrite Ht; apply orb_true_r).
  unfold Extract.outer. rewrite Htd, Ht.
  destruct (String.eqb_spec (strip type) EmptyString) as [E|_].
  { rewrite E in Ht. discriminate Ht. }
  unfold Extract.step at 3. cbn [Extract.mode].
  destruct (String.eqb_spec (strip name) "Rejected") as [E|_];
    [contradiction|].
  unfold Extract.details at 1. rewrite Hnd, Hnt. cbn [orb].
  rewrite Hne, Hns. cbn [Extract.transaction_type].
  change (str_in (strip type) ["Deposit"; "Withdrawal"; "Distribution"])
    with (str_in (strip type) cash_types). rewrite Htc.
  unfold Extract.step at 2. cbn [Extract.mode].
  unfold Extract.details at 1. rewrite Hsd, Hst. cbn [orb]. rewrite Hse.
  unfold Extract.step. cbn [Extract.mode].
  unfold Extract.details. rewrite Had, Hat. cbn [orb]. rewrite Hae, Has.
  reflexivity.
Qed.

Lemma block_of_a_purchase :
  Extract.transactions
    (Extract.run Extract.strptime_two_days Extract.initial
       ["Buy"; "iShares Core MSCI Europe"; "  2.5 Shr."; "€ -197.40"])
  = Extract.transactions Extract.initial
    ++ [[ ("Date", "0000-00-00");
          ("Transaction Type", "Buy");
          ("Instrument Name", "iShares Core MSCI Europe");
          ("Shares", "2.5");
          ("Amount", "-197.40") ]].
Proof.
  apply (block_of_an_instrument_gives_one_record Extract.strptime_two_days
           Extract.initial
           "Buy" "iShares Core MSCI Europe" "  2.5 Shr." "€ -197.40"
           eq_refl).
  - repeat split; reflexivity.
  - repeat split; try reflexivity. discriminate.
  - repeat split; reflexivity.
  - repeat split; reflexivity.
Defined.

Lemma rejected_savings_plan_leaves_no_trace :
  (Extract.strptime_two_days "Rejected" = None /\
   Forall (plain Extract.strptime_two_days)
     ["Amundi MSCI World V"; "€ -50.00"]) /\
  Extract.process_transactions Extract.strptime_two_days Extract.statement
  = Extract.process_transactions Extract.strptime_two_days
      (firstn 6 Extract.statement ++ skipn 10 Extract.statement).
Proof.
  assert (Forall (plain Extract.strptime_two_days)
            ["Amundi MSCI World V"; "€ -50.00"]) as Hbody
    by (repeat constructor; reflexivity).
  split; [split; [reflexivity | exact Hbody]|].
  exact (rejected_transaction_leaves_no_trace Extract.strptime_two_days
           (firstn 6 Extract.statement) "Savings Plan" "Rejected"
           ["Amundi MSCI World V"; "€ -50.00"] (skipn 10 Extract.statement)
           eq_refl eq_refl eq_refl eq_refl Hbody eq_refl).
Defined.

(** The records of the statement: the purchase and the distribution. *)
Example records_of_the_statement :
  Extract.process_transactions Extract.strptime_two_days Extract.statement
  = [ [ ("Date", "2024-11-08"); ("Transaction Type", "Buy");
        ("Instrument Name", "iShares Core MSCI Europe");
        ("Shares", "2.5"); ("Amount", "-197.40") ];
      [ ("Date", "2024-11-11"); ("Transaction Type", "Distribution");
        ("Description", "Amundi MSCI Emerging Markets II");
        ("Amount", "12.34") ] ].
Proof. reflexivity. Qed.

(* ================================================================= *)
(** * The ledger on binary64: proofs *)

Section Binary64Ledger.
Import Binary64.
Local Open Scope float_scope.
Variable py_float : string -> option float.

(** ** Which branch a row takes *)

Lemma b64_process_row_sell st row amount s :
  str_in (transaction_type row) ["Sell"; "Swap out"] = true ->
  reads_as py_float row amount s ->
  process_row py_float st row = sell st (instrument_canonical row) amount s.
Proof.
  intros Ht [Ha Hs]. unfold process_row. rewrite Ha, Hs, Ht.
  apply str_in_cases in Ht.
  destruct Ht as [E|[E|[]]]; rewrite <- E; reflexivity.
Qed.

(** ** The loop of a disposal *)

(** On lots that it pops whole the loop subtracts and adds lot by lot and
    goes on with the rest of the queue. *)
Lemma b64_disposal_pops price popped :
  forall rest s total pl,
    pops_whole s popped = true ->
    fifo_disposal price (popped ++ rest) s total pl
    = fifo_disposal price rest (remaining_after s popped)
        (total_after total popped) (realized_after price pl popped).
Proof.
  induction popped as [|lot popped IH]; intros rest s total pl H.
  - reflexivity.
  - cbn [pops_whole] in H.
    apply andb_prop in H as [H H3]. apply andb_prop in H as [H1 H2].
    cbn [app fifo_disposal]. rewrite H1, H2.
    rewrite (IH rest _ _ _ H3). reflexivity.
Qed.

(** Every queue splits into the lots the loop pops whole and the rest, at
    whose head (if there is one) the loop stops. *)
Lemma b64_disposal_split queue :
  forall s, exists popped rest,
    queue = popped ++ rest /\
    pops_whole s popped = true /\
    match rest with
    | [] => True
    | lot :: _ =>
        (0 <? remaining_after s popped)
        && (shares lot <=? remaining_after s popped) = false
    end.
Proof.
  induction queue as [|lot queue IH]; intro s.
  - exists [], []. repeat split.
  - destruct ((0 <? s) && (shares lot <=? s)) eqn:E.
    + destruct (IH (s - shares lot)) as (popped & rest & Hq & Hp & Hr).
      exists (lot :: popped), rest. split; [now rewrite Hq|].
      split; [cbn [pops_whole]; now rewrite E, Hp|exact Hr].
    + exists [], (lot :: queue). repeat split. exact E.
Qed.

(** The loop at a lot it does not pop whole. *)
Lemma b64_disposal_stops price lot rest s total pl :
  (0 <? s) && (shares lot <=? s) = false ->
  fifo_disposal price (lot :: rest) s total pl
  = if 0 <? s
    then (with_lot_shares lot (shares lot - s) :: rest, 0, total - s,
          pl + (price - cost_per_share lot) * s)
    else (lot :: rest, s, total, pl).
Proof.
  intro H. cbn [fifo_disposal]. destruct (0 <? s); [|reflexivity].
  cbn [andb] in H. now rewrite H.
Qed.
End Binary64Ledger.

(* ================================================================= *)
(** * C1: FIFO disposal *)

Section Binary64Disposal.
Import Binary64.
Local Open Scope float_scope.

(** C1.  A [Sell] or [Swap out] of a tracked instrument consumes the lots
    strictly oldest-first, in the program's floating-point arithmetic.  The
    queue splits as [popped ++ rest]: every lot of [popped] is popped whole,
    being no larger than the shares still to sell when the loop reaches it,
    and realizes [(sale_price - lot.cost_per_share) * lot.shares]; what is
    still to sell, the entry's total and the realized P&L are reduced and
    raised lot by lot, in this order.  If shares are left to sell then, the
    first lot of [rest] holds more than is left: it is reduced in place by
    what is left and realizes [(sale_price - lot.cost_per_share)] times
    that; the lots behind it are untouched.  The over-sell warning is
    printed only when [rest] is empty and shares are left. *)
Theorem disposal_consumes_oldest_lots_first
    (py_float : string -> option float) (st : Ledger) (row : Row)
    (amount s : float) (data : HoldingsData) :
  str_in (transaction_type row) ["Sell"; "Swap out"] = true ->
  reads_as py_float row amount s ->
  dict_get (holdings st) (instrument_canonical row) = Some data ->
  exists popped rest data',
    lots data = popped ++ rest /\
    pops_whole s popped = true /\
    dict_get (holdings (process_row py_float st row))
      (instrument_canonical row) = Some data' /\
    let price := sale_price amount s in
    let left := remaining_after s popped in
    match rest with
    | lot :: rest' =>
        stdout (process_row py_float st row) = stdout st /\
        if 0 <? left then
          (shares lot <=? left) = false /\
          lots data' = with_lot_shares lot (shares lot - left) :: rest' /\
          total_shares data' = total_after (total_shares data) popped - left /\
          realized_pl (process_row py_float st row)
          = realized_after price (realized_pl st) popped
            + (price - cost_per_share lot) * left
        else
          lots data' = rest /\
          total_shares data' = total_after (total_shares data) popped /\
          realized_pl (process_row py_float st row)
          = realized_after price (realized_pl st) popped
    | [] =>
        lots data' = [] /\
        total_shares data' = total_after (total_shares data) popped /\
        realized_pl (process_row py_float st row)
        = realized_after price (realized_pl st) popped /\
        stdout (process_row py_float st row)
        = if 0 <? left
          then stdout st ++ [WarnSoldMore (instrument_canonical row)]
          else stdout st
    end.
Proof.
  intros Ht Hr Hget.
  rewrite (b64_process_row_sell py_float st row amount s Ht Hr).
  destruct (b64_disposal_split (lots data) s) as (popped & rest & Hq & Hp & Hstop).
  unfold sell. rewrite Hget, Hq.
  rewrite (b64_disposal_pops _ popped rest _ _ _ Hp).
  destruct rest as [|lot rest'].
  - cbn [fifo_disposal].
    exists popped, [],
      (with_lots data [] (total_after (total_shares data) popped)).
    split; [reflexivity|]. split; [exact Hp|].
    destruct (0 <? remaining_after s popped);
      cbn [print holdings realized_pl stdout];
      rewrite dict_get_set_same; repeat split.
  - rewrite (b64_disposal_stops _ lot rest' _ _ _ Hstop).
    destruct (0 <? remaining_after s popped) eqn:E.
    + cbn [andb] in Hstop.
      exists popped, (lot :: rest'),
        (with_lots data
           (with_lot_shares lot (shares lot - remaining_after s popped) :: rest')
           (total_after (total_shares data) popped - remaining_after s popped)).
      split; [reflexivity|]. split; [exact Hp|].
      assert ((0 <? 0) = false) as -> by reflexivity.
      cbn [holdings realized_pl stdout]. rewrite dict_get_set_same.
      cbv zeta. rewrite ?E. repeat split. exact Hstop.
    + exists popped, (lot :: rest'),
        (with_lots data (lot :: rest') (total_after (total_shares data) popped)).
      split; [reflexivity|]. split; [exact Hp|].
      cbv beta iota zeta. rewrite E.
      cbn [holdings realized_pl stdout].
      rewrite dict_get_set_same. repeat split.
Qed.

(** The example of the specification: lots [{10 @ 5}, {10 @ 7}] and a sale
    of 15 shares for 150.  The first lot is popped, the second reduced to 5
    shares, and the profit is [10 * (10 - 5) + 5 * (10 - 7) = 65]. *)
Lemma disposal_of_15_from_two_lots :
  reads_as decimal sell_15 150 15 /\
  exists data',
    dict_get (holdings (process_row decimal two_lots sell_15)) world
    = Some data' /\
    lots data' = [mkLot "2024-02-01" 5 7] /\
    total_shares data' = 5 /\
    realized_pl (process_row decimal two_lots sell_15) = 65 /\
    stdout (process_row decimal two_lots sell_15) = [].
Proof.
  assert (reads_as decimal sell_15 150 15) as Hr by (split; reflexivity).
  split; [exact Hr|].
  destruct (disposal_consumes_oldest_lots_first decimal two_lots sell_15
              150 15 (entry_of [lot_a; lot_b] 20) eq_refl Hr eq_refl)
    as (popped & rest & data' & Hq & Hp & Hget & H).
  exists data'. split; [exact Hget|].
  cbn [lots entry_of] in Hq. cbv zeta in H.
  destruct popped as [|l1 popped].
  - cbn [app] in Hq. subst rest. destruct H as (_ & H).
    change (0 <? remaining_after 15 []) with true in H.
    destruct H as (H & _). discriminate H.
  - injection Hq as <- Hq.
    destruct popped as [|l2 popped].
    + cbn [app] in Hq. subst rest. destruct H as (Hout & H).
      change (0 <? remaining_after 15 [lot_a]) with true in H.
      destruct H as (_ & Hl & Ht & Hpl).
      repeat split; assumption.
    + injection Hq as <- Hq. discriminate Hp.
Defined.
End Binary64Disposal.

(* ================================================================= *)
(** * C2: the invariant, and rounding *)

Section Binary64Invariant.
Import Binary64.
Local Open Scope float_scope.
Variable py_float : string -> option float.

Lemma b64_sum_shares_cons (lot : Lot) (q : list Lot) :
  (sum_shares (lot :: q) = exact (shares lot) + sum_shares q)%Qc.
Proof. reflexivity. Qed.

Lemma b64_sum_shares_nil : sum_shares [] = 0%Qc.
Proof. reflexivity. Qed.

Lemma b64_sum_shares_app (q1 q2 : list Lot) :
  (sum_shares (q1 ++ q2) = sum_shares q1 + sum_shares q2)%Qc.
Proof.
  induction q1 as [|lot q1 IH]; cbn [app].
  - rewrite b64_sum_shares_nil. ring.
  - rewrite !b64_sum_shares_cons, IH. ring.
Qed.

Lemma b64_adds_exactly x y :
  adds_exactly x y = true ->
  finite (x + y) = true /\ (exact (x + y) = exact x + exact y)%Qc.
Proof.
  unfold adds_exactly. intro H. apply andb_prop in H as [H1 H2].
  split; [exact H1 | now apply Qc_eq_bool_true].
Qed.

Lemma b64_subtracts_exactly x y :
  subtracts_exactly x y = true ->
  finite (x - y) = true /\ (exact (x - y) = exact x - exact y)%Qc.
Proof.
  unfold subtracts_exactly. intro H. apply andb_prop in H as [H1 H2].
  split; [exact H1 | now apply Qc_eq_bool_true].
Qed.

(** A disposal whose updates do not round keeps the total at the sum of the
    lots. *)
Lemma b64_disposal_consistent price queue :
  forall s total pl,
    (exact total = sum_shares queue)%Qc -> finite total = true ->
    disposal_rounds_nothing queue s total = true ->
    finite (snd (fst (fifo_disposal price queue s total pl))) = true /\
    (exact (snd (fst (fifo_disposal price queue s total pl)))
     = sum_shares (fst (fst (fst (fifo_disposal price queue s total pl)))))%Qc.
Proof.
  induction queue as [|lot rest IH]; intros s total pl Hsum Hfin Hex.
  - split; assumption.
  - cbn [fifo_disposal disposal_rounds_nothing] in *.
    destruct (0 <? s); [|split; assumption].
    destruct (shares lot <=? s).
    + apply andb_prop in Hex as [H1 H2].
      apply b64_subtracts_exactly in H1 as [F E].
      apply IH; [|exact F|exact H2].
      rewrite E, Hsum, b64_sum_shares_cons. ring.
    + apply andb_prop in Hex as [H1 H2].
      apply b64_subtracts_exactly in H1 as [_ E1].
      apply b64_subtracts_exactly in H2 as [F2 E2].
      cbn [fst snd]. split; [exact F2|].
      rewrite E2, Hsum, !b64_sum_shares_cons.
      cbn [with_lot_shares shares]. rewrite E1. ring.
Qed.

Lemma b64_row_consistent st row :
  ledger_consistent (holdings st) ->
  row_rounds_nothing py_float st row = true ->
  ledger_consistent (holdings (process_row py_float st row)).
Proof.
  intros Hst Hex. unfold process_row, row_rounds_nothing in *.
  destruct (str_in (transaction_type row) ["Deposit"; "Withdrawal"]);
    [assumption|].
  destruct (String.eqb (transaction_type row) "Distribution").
  { destruct (py_float (amount_str row)); assumption. }
  destruct (py_float (amount_str row)) as [amount|]; [|assumption].
  destruct (py_float (shares_str row)) as [s|]; [|assumption].
  destruct (str_in (transaction_type row) ["Buy"; "Savings Plan"; "Swap in"]).
  { unfold buy. cbn [holdings].
    apply Forall_dict_set; [|exact Hst]. intros k'. cbn [snd].
    apply b64_adds_exactly in Hex as [F E].
    destruct (dict_get (holdings st) (instrument_canonical row))
      as [data|] eqn:G.
    - pose proof (Forall_get _ _ _ _ Hst G) as [_ Hd]. cbn [snd] in Hd.
      split; cbn [with_lots total_shares lots]; [exact F|].
      rewrite b64_sum_shares_app, E, Hd, b64_sum_shares_cons.
      rewrite b64_sum_shares_nil. cbn [shares]. ring.
    - split; cbn [with_lots total_shares lots empty_entry]; [exact F|].
      rewrite E. cbn [app]. rewrite b64_sum_shares_cons, b64_sum_shares_nil.
      cbn [shares].
      assert (exact 0 = 0%Qc) as -> by reflexivity. ring. }
  destruct (str_in (transaction_type row) ["Sell"; "Swap out"]);
    [|assumption].
  unfold sell.
  destruct (dict_get (holdings st) (instrument_canonical row))
    as [data|] eqn:G; [|assumption].
  pose proof (Forall_get _ _ _ _ Hst G) as [Hf Hd]. cbn [snd] in Hf, Hd.
  pose proof (b64_disposal_consistent (sale_price amount s) (lots data) s
                (total_shares data) (realized_pl st) Hd Hf Hex) as [F E].
  destruct (fifo_disposal _ _ _ _ _) as [[[queue' s'] total'] pl'].
  cbn [fst snd] in F, E.
  assert (ledger_consistent
            (dict_set (holdings st) (instrument_canonical row)
               (with_lots data queue' total'))) as H
    by (apply Forall_dict_set; [intros k'; split; assumption | exact Hst]).
  destruct (0 <? s'); exact H.
Qed.

Lemma b64_fold_consistent rows :
  forall st,
    ledger_consistent (holdings st) ->
    history_rounds_nothing py_float st rows = true ->
    forall n,
      ledger_consistent
        (holdings (fold_left (process_row py_float) (firstn n rows) st)).
Proof.
  induction rows as [|row rows IH]; intros st Hst Hex n.
  - destruct n; exact Hst.
  - destruct n as [|n]; [exact Hst|].
    cbn [history_rounds_nothing] in Hex. apply andb_prop in Hex as [H1 H2].
    cbn [firstn fold_left]. apply IH; [|exact H2].
    now apply b64_row_consistent.
Qed.
End Binary64Invariant.

Section Binary64InvariantClaims.
Import Binary64.
Local Open Scope float_scope.

(** C2 (as the program has it).  Starting from the empty portfolio, if no
    update of [total_shares] or of a lot's shares rounds in a history (the
    additions of its acquisitions and the subtractions of its disposals
    give finite floats that are the exact sums and differences), then after
    every transaction every Holdings Entry has [total_shares], as a
    number, equal to the sum of the shares of its lots. *)
Theorem total_shares_is_sum_of_lots_without_rounding
    (py_float : string -> option float) (transactions : list Row) :
  history_rounds_nothing py_float initial transactions = true ->
  forall n,
    ledger_consistent
      (holdings (process_transactions py_float (firstn n transactions))).
Proof.
  intros H n. unfold process_transactions.
  apply b64_fold_consistent; [constructor | exact H].
Qed.

(** Two purchases of 10 shares and a sale of 15: nothing rounds. *)
Lemma total_is_sum_after_two_buys_and_a_sale :
  history_rounds_nothing decimal initial
    [buy_10_for_50; buy_10_for_70; sell_15] = true /\
  forall n,
    ledger_consistent
      (holdings (process_transactions decimal
                   (firstn n [buy_10_for_50; buy_10_for_70; sell_15]))).
Proof.
  assert (history_rounds_nothing decimal initial
            [buy_10_for_50; buy_10_for_70; sell_15] = true) as H
    by (vm_compute; reflexivity).
  split; [exact H|].
  exact (total_shares_is_sum_of_lots_without_rounding decimal
           [buy_10_for_50; buy_10_for_70; sell_15] H).
Defined.

(** The claim as stated fails on the program.  After purchases of 0.1, 0.2
    and 0.3 shares and a sale of 0.1, [total_shares] is
    [0.5000000000000001] over lots of 0.2 and 0.3 shares, whose sum is
    one half.  After purchases of [10^16] shares and of one share and a sale
    of [10^16], [total_shares] is 0 over one lot of one share: the
    difference is a whole share, beyond any tolerance. *)
Lemma rounding_breaks_total_shares :
  (exists data,
      dict_get (holdings (process_transactions decimal tenths)) world
      = Some data /\
      total_shares data = 0.5000000000000001 /\
      map shares (lots data) = [0.2; 0.3] /\
      sum_shares (lots data) = Q2Qc (1 # 2) /\
      exact (total_shares data) <> sum_shares (lots data)) /\
  (exists data,
      dict_get (holdings (process_transactions decimal large_and_one)) world
      = Some data /\
      total_shares data = 0 /\
      map shares (lots data) = [1] /\
      (sum_shares (lots data) - exact (total_shares data) = 1)%Qc) /\
  ~ ledger_consistent (holdings (process_transactions decimal tenths)).
Proof.
  assert (forall x y : Qc, Qc_eq_bool x y = false -> x <> y) as Hneq.
  { intros x y H E. apply Qc_eq_bool_true in E. congruence. }
  split; [|split].
  - eexists. split; [vm_compute; reflexivity|].
    cbn [total_shares lots map shares].
    split; [reflexivity|]. split; [reflexivity|].
    split; [apply Qc_is_canon; vm_compute; reflexivity|].
    apply Hneq. vm_compute. reflexivity.
  - eexists. split; [vm_compute; reflexivity|].
    cbn [total_shares lots map shares].
    split; [reflexivity|]. split; [reflexivity|].
    apply Qc_is_canon. vm_compute. reflexivity.
  - intro H.
    assert (dict_get (holdings (process_transactions decimal tenths)) world
            = Some (entry_of [mkLot "2024-01-02" 0.2 (abs (-1 / 0.2));
                              mkLot "2024-01-02" 0.3 (abs (-1 / 0.3))]
                      0.5000000000000001)) as G
      by (vm_compute; reflexivity).
    pose proof (Forall_get _ _ _ _ H G) as [_ E]. cbn [snd] in E.
    revert E. apply Hneq. vm_compute. reflexivity.
Qed.
End Binary64InvariantClaims.

(* ================================================================= *)
(** * C4: a disposal of more shares than the lots hold *)

Section Binary64Oversell.
Import Binary64.
Local Open Scope float_scope.

(** Subtractions that do not round take the sum of the lots off the
    total. *)
Lemma b64_total_after_exact queue :
  forall total,
    finite total = true ->
    subtractions_exact total queue = true ->
    finite (total_after total queue) = true /\
    (exact (total_after total queue) = exact total - sum_shares queue)%Qc.
Proof.
  induction queue as [|lot rest IH]; intros total F H.
  - split; [exact F|]. cbn [total_after fold_left].
    rewrite b64_sum_shares_nil. ring.
  - cbn [subtractions_exact] in H. apply andb_prop in H as [H1 H2].
    apply b64_subtracts_exactly in H1 as [F1 E1].
    destruct (IH _ F1 H2) as [F' E'].
    split; [exact F'|].
    change (total_after total (lot :: rest))
      with (total_after (total - shares lot) rest).
    rewrite E', E1, b64_sum_shares_cons. ring.
Qed.

(** C4 (as the program has it).  The program warns of an over-sell exactly
    when its loop runs out of lots with shares left to sell.  Then it has
    popped every lot whole: the entry is left with no lot, the realized P&L
    is raised by the profit of each lot that existed and no more, and the
    warning is printed once.  There is no clamp: [total_shares] is the
    recorded total less the shares of each lot in turn, in floating point.
    It is zero when the recorded total was the sum of the lots and none of
    these subtractions rounds. *)
Theorem oversold_disposal_empties_the_queue
    (py_float : string -> option float) (st : Ledger) (row : Row)
    (amount s : float) (data : HoldingsData) :
  str_in (transaction_type row) ["Sell"; "Swap out"] = true ->
  reads_as py_float row amount s ->
  dict_get (holdings st) (instrument_canonical row) = Some data ->
  (oversold s (lots data) = false ->
   stdout (process_row py_float st row) = stdout st) /\
  (oversold s (lots data) = true ->
   exists data',
     dict_get (holdings (process_row py_float st row))
       (instrument_canonical row) = Some data' /\
     lots data' = [] /\
     total_shares data' = total_after (total_shares data) (lots data) /\
     realized_pl (process_row py_float st row)
     = realized_after (sale_price amount s) (realized_pl st) (lots data) /\
     stdout (process_row py_float st row)
     = stdout st ++ [WarnSoldMore (instrument_canonical row)] /\
     (entry_consistent data ->
      subtractions_exact (total_shares data) (lots data) = true ->
      finite (total_shares data') = true /\
      exact (total_shares data') = 0%Qc)).
Proof.
  intros Ht Hr Hget.
  rewrite (b64_process_row_sell py_float st row amount s Ht Hr).
  unfold sell. rewrite Hget. split.
  - intro Hno.
    destruct (b64_disposal_split (lots data) s)
      as (popped & rest & Hq & Hp & Hstop).
    rewrite Hq in *. rewrite (b64_disposal_pops _ popped rest _ _ _ Hp).
    destruct rest as [|lot rest'].
    + rewrite app_nil_r in Hno. unfold oversold in Hno. rewrite Hp in Hno.
      cbn [andb fifo_disposal] in *. rewrite Hno. reflexivity.
    + rewrite (b64_disposal_stops _ lot rest' _ _ _ Hstop).
      destruct (0 <? remaining_after s popped) eqn:E.
      * assert ((0 <? 0) = false) as -> by reflexivity. reflexivity.
      * cbv beta iota zeta. rewrite E. reflexivity.
  - intro Hover. unfold oversold in Hover.
    apply andb_prop in Hover as [Hp Hleft].
    pose proof (b64_disposal_pops (sale_price amount s) (lots data) []
                  s (total_shares data) (realized_pl st) Hp) as L.
    rewrite app_nil_r in L. rewrite L. cbn [fifo_disposal].
    rewrite Hleft.
    exists (with_lots data [] (total_after (total_shares data) (lots data))).
    cbn [print holdings realized_pl stdout]. rewrite dict_get_set_same.
    do 5 (split; [reflexivity|]).
    intros [F E] Hex. cbn [with_lots total_shares].
    destruct (b64_total_after_exact _ _ F Hex) as [F' E'].
    split; [exact F'|]. rewrite E', E. ring.
Qed.

(** The example of the specification: 25 shares sold against lots of 10 and
    10.  The profit is that of 20 shares, [10 * 5 + 10 * 3 = 80]; nothing
    rounds, and the total is 0. *)
Lemma oversold_25_against_20 :
  reads_as decimal sell_25 250 25 /\
  oversold 25 [lot_a; lot_b] = true /\
  exists data',
    dict_get (holdings (process_row decimal two_lots sell_25)) world
    = Some data' /\
    lots data' = [] /\
    total_shares data' = 0 /\
    realized_pl (process_row decimal two_lots sell_25) = 80 /\
    stdout (process_row decimal two_lots sell_25) = [WarnSoldMore world].
Proof.
  assert (reads_as decimal sell_25 250 25) as Hr by (split; reflexivity).
  split; [exact Hr|]. split; [reflexivity|].
  destruct (proj2 (oversold_disposal_empties_the_queue decimal two_lots sell_25
                     250 25 (entry_of [lot_a; lot_b] 20) eq_refl Hr eq_refl)
              eq_refl)
    as (data' & Hget & Hl & Ht & Hpl & Hout & _).
  exists data'. repeat split; assumption.
Defined.

(** The claim as stated fails on the program.  Purchases of 0.3, 0.3 and
    0.4 shares give a total of exactly 1.0; a sale of 2 shares then pops the
    three lots and leaves a total of [-5.55e-17]: no lot, the warning, and a
    negative number of shares. *)
Lemma oversold_total_goes_negative :
  exists data,
    dict_get
      (holdings
         (process_transactions decimal (one_share_in_three ++ [sell_of "2"])))
      world = Some data /\
    lots data = [] /\
    total_shares data = -5.5511151231257827e-17 /\
    (total_shares data <? 0) = true /\
    stdout (process_transactions decimal (one_share_in_three ++ [sell_of "2"]))
    = [WarnSoldMore world] /\
    (exists before,
        dict_get (holdings (process_transactions decimal one_share_in_three))
          world = Some before /\
        total_shares before = 1 /\
        map shares (lots before) = [0.3; 0.3; 0.4] /\
        oversold 2 (lots before) = true).
Proof.
  eexists. split; [vm_compute; reflexivity|].
  cbn [lots total_shares].
  split; [reflexivity|]. split; [reflexivity|]. split; [reflexivity|].
  split; [vm_compute; reflexivity|].
  eexists. split; [vm_compute; reflexivity|].
  cbn [lots total_shares map shares]. repeat split.
Qed.

(** Rounding can also leave shares without a lot: after purchases of 0.1
    and 0.3 shares, a sale of 0.4 (the total recorded) pops both lots, warns
    of an over-sell, and leaves [5.55e-17] shares in an entry with no
    lot. *)
Example rounding_leaves_shares_without_lots :
  exists data,
    dict_get (holdings (process_transactions decimal four_tenths)) world
    = Some data /\
    lots data = [] /\
    total_shares data = 5.5511151231257827e-17 /\
    (0 <? total_shares data) = true /\
    stdout (process_transactions decimal four_tenths) = [WarnSoldMore world].
Proof.
  eexists. split; [vm_compute; reflexivity|].
  cbn [lots total_shares]. repeat split.
Qed.
End Binary64Oversell.
